(** * Report-a-found-document form: PhotoUpload widget and SignalerCarte page

    A shallow embedding of the two TypeScript components
    [src/components/card-report/PhotoUpload.tsx] (the drag-and-drop photo
    picker) and the [SignalerCarte] page (validation schema, form state,
    submission handler), followed by the properties of the written
    specification that they do or do not satisfy.

    Event handlers are computations in a small monad [Js] that threads the
    React state of the two components, records every externally visible call
    in a chronological trace, and distinguishes the three ways a JavaScript
    function body can complete: normally, by [return], or by [throw]. *)

From Stdlib Require Import String Ascii List Bool NArith Arith Lia Sorted.
From ExtLib Require Import Structures.Monad.
Import ListNotations.
Import MonadNotation.
Local Open Scope string_scope.
Local Open Scope monad_scope.

(** ** Run-time values *)

(** A browser [File]: the three properties the code reads. *)
Module File.
Record t : Type := mk { name : string; type : string; size : N }.
End File.

(** Values that can be handed to an owner's callback and stored in the
    [file] state cell at run time. TypeScript annotations are erased, so
    besides [null] and a [File] there is the object literal
    [{ target: { files: [file] } }] that [PhotoUpload] builds and casts to a
    change event. *)
Inductive JsVal : Type :=
| JNull
| JFile (f : File.t)
| JEvent (files : list File.t).

(** [if (v)]: [null] is falsy, every object is truthy. *)
Definition truthy (v : JsVal) : bool :=
  match v with
  | JNull => false
  | _ => true
  end.

(** [v.name]: a [File] has one; on the event literal it is [undefined]. *)
Definition prop_name (v : JsVal) : option string :=
  match v with
  | JFile f => Some (File.name f)
  | _ => None
  end.

Inductive Error : Type :=
| TypeError (msg : string)
| StorageError (msg : string)
| PostgrestError (msg : string).

Record User : Type := mkUser { id : string }.

(** The argument of [toast({ variant, title, description })]. *)
Inductive Variant : Type := Default | Destructive.

Module Toast.
Record t : Type := mk { variant : Variant; title : string; description : string }.
End Toast.

(** The values handed to [onSubmit]: [z.infer<typeof formSchema>].
    [description] is [string | undefined]. *)
Module Values.
Record t : Type := mk {
  documentType : string;
  cardNumber : string;
  location : string;
  foundDate : string;
  description : option string }.
End Values.

(** The row sent to the [reported_cards] table; [None] is [null]. *)
Module Card.
Record t : Type := mk {
  reporter_id : string;
  card_number : string;
  location : string;
  found_date : string;
  description : option string;
  photo_url : option string;
  document_type : string }.
End Card.

(** A validation issue: the field it is attached to and its message. *)
Record Issue : Type := mkIssue { path : string; message : string }.

(** ** Trace of visible calls

    Calls to the three backend collaborators carry the answer they resolved
    with; state setters and [navigate] are recorded so that their position
    relative to the teardown of the view can be stated. *)
Inductive Effect : Type :=
| EToast (t : Toast.t)
| EConsoleError (label : string) (e : Error)
| EGetUser (answer : option User)
| EUpload (bucket key : string) (body : JsVal) (answer : option Error)
| EGetPublicUrl (bucket key : string) (url : string)
| EInsert (table : string) (rows : list Card.t) (answer : option Error)
| ENavigate (to : string)
| ESetIsSubmitting (b : bool)
| ESetFile (v : JsVal)
| ESetIsDragging (b : bool)
| EPreventDefault
| EUnmount.

(** ** Component state *)

Record State : Type := mkState {
  (* SignalerCarte *)
  isSubmitting : bool;
  file : JsVal;
  mounted : bool;
  formValues : Values.t;
  formErrors : list Issue;
  (* PhotoUpload *)
  isDragging : bool }.

Definition with_isSubmitting (b : bool) (s : State) : State :=
  mkState b (file s) (mounted s) (formValues s) (formErrors s) (isDragging s).
Definition with_file (v : JsVal) (s : State) : State :=
  mkState (isSubmitting s) v (mounted s) (formValues s) (formErrors s) (isDragging s).
Definition with_mounted (b : bool) (s : State) : State :=
  mkState (isSubmitting s) (file s) b (formValues s) (formErrors s) (isDragging s).
Definition with_form (v : Values.t) (e : list Issue) (s : State) : State :=
  mkState (isSubmitting s) (file s) (mounted s) v e (isDragging s).
Definition with_formErrors (e : list Issue) (s : State) : State :=
  mkState (isSubmitting s) (file s) (mounted s) (formValues s) e (isDragging s).
Definition with_isDragging (b : bool) (s : State) : State :=
  mkState (isSubmitting s) (file s) (mounted s) (formValues s) (formErrors s) b.

(** ** The monad of handlers *)

Inductive Completion (A : Type) : Type :=
| Normal (a : A)
| Returned
| Thrown (e : Error).
Arguments Normal {A} a.
Arguments Returned {A}.
Arguments Thrown {A} e.

Record Outcome (A : Type) : Type := mkOutcome {
  completion : Completion A;
  final : State;
  emitted : list Effect }.
Arguments mkOutcome {A}.
Arguments completion {A}.
Arguments final {A}.
Arguments emitted {A}.

Definition Js (A : Type) : Type := State -> Outcome A.

Definition js_ret {A} (a : A) : Js A := fun s => mkOutcome (Normal a) s [].

Definition js_bind {A B} (m : Js A) (k : A -> Js B) : Js B := fun s =>
  match m s with
  | mkOutcome (Normal a) s1 l1 =>
      match k a s1 with
      | mkOutcome c s2 l2 => mkOutcome c s2 (l1 ++ l2)
      end
  | mkOutcome Returned s1 l1 => mkOutcome Returned s1 l1
  | mkOutcome (Thrown e) s1 l1 => mkOutcome (Thrown e) s1 l1
  end.

#[export] Instance Monad_Js : Monad Js := {| ret := @js_ret; bind := @js_bind |}.

(** [return;] and [throw e]. *)
Definition return_ {A} : Js A := fun s => mkOutcome Returned s [].
Definition throw {A} (e : Error) : Js A := fun s => mkOutcome (Thrown e) s [].

(** The boundary of a function whose result is ignored: [return] ends it,
    an exception propagates to the caller. *)
Definition function_ (body : Js unit) : Js unit := fun s =>
  match body s with
  | mkOutcome Returned s1 l1 => mkOutcome (Normal tt) s1 l1
  | o => o
  end.

(** [try { body } catch (error) { handler } finally { fin }]. The [finally]
    block runs however the rest completed, and overrides that completion
    only if it completes abruptly itself. *)
Definition try_catch_finally
    (body : Js unit) (handler : Error -> Js unit) (fin : Js unit) : Js unit := fun s =>
  match
    match body s with
    | mkOutcome (Thrown e) s1 l1 =>
        match handler e s1 with
        | mkOutcome c s2 l2 => mkOutcome c s2 (l1 ++ l2)
        end
    | o => o
    end
  with
  | mkOutcome c s2 l2 =>
      match fin s2 with
      | mkOutcome (Normal _) s3 l3 => mkOutcome c s3 (l2 ++ l3)
      | mkOutcome Returned s3 l3 => mkOutcome Returned s3 (l2 ++ l3)
      | mkOutcome (Thrown e) s3 l3 => mkOutcome (Thrown e) s3 (l2 ++ l3)
      end
  end.

Definition emit (e : Effect) : Js unit := fun s => mkOutcome (Normal tt) s [e].
Definition read {A} (f : State -> A) : Js A := fun s => mkOutcome (Normal (f s)) s [].
Definition modify (f : State -> State) : Js unit := fun s => mkOutcome (Normal tt) (f s) [].

Definition toast (t : Toast.t) : Js unit := emit (EToast t).

(** ** PhotoUpload.tsx *)

Definition setIsDragging (b : bool) : Js unit :=
  emit (ESetIsDragging b) ;; modify (with_isDragging b).

Definition allowedTypes : list string := ["image/jpeg"; "image/png"; "image/jpg"].
Definition maxSize : N := 5 * 1024 * 1024.

(** [Array.prototype.includes] on strings. *)
Definition includes (l : list string) (x : string) : bool :=
  existsb (String.eqb x) l.

Definition unsupportedTypeToast : Toast.t :=
  Toast.mk Destructive "Type de fichier non supporté"
    "Veuillez sélectionner une image au format JPG ou PNG".

Definition tooLargeToast : Toast.t :=
  Toast.mk Destructive "Fichier trop volumineux"
    "La taille du fichier ne doit pas dépasser 5MB".

Section PhotoUpload.
(** The [onFileChange] prop: whatever handler the owner passed. *)
Variable onFileChange : JsVal -> Js unit.

Definition validateAndHandleFile (file : File.t) : Js unit :=
  function_ (
    (if negb (includes allowedTypes (File.type file))
     then toast unsupportedTypeToast ;; return_
     else ret tt) ;;
    (if (maxSize <? File.size file)%N
     then toast tooLargeToast ;; return_
     else ret tt) ;;
    let syntheticEvent := JEvent [file] in
    onFileChange syntheticEvent).

(** [e.dataTransfer.files] is the list of dropped files. *)
Definition handleDrop (files : list File.t) : Js unit :=
  function_ (
    emit EPreventDefault ;;
    setIsDragging false ;;
    match hd_error files with
    | Some droppedFile => validateAndHandleFile droppedFile
    | None => ret tt
    end).

(** [e.target.files] of a file input may be [null]. *)
Definition handleFileInputChange (files : option (list File.t)) : Js unit :=
  function_ (
    match match files with Some l => hd_error l | None => None end with
    | Some selectedFile => validateAndHandleFile selectedFile
    | None => ret tt
    end).

Definition handleDragOver : Js unit :=
  function_ (emit EPreventDefault ;; setIsDragging true).

Definition handleDragLeave : Js unit :=
  function_ (emit EPreventDefault ;; setIsDragging false).
End PhotoUpload.

(** ** SignalerCarte: validation schema *)

(** [\d] without the [u] flag: the code units ['0'] to ['9']. Strings are
    kept as byte sequences; every byte of a multi-byte character is above
    127, hence never a digit, as in JavaScript. *)
Definition is_digit (c : ascii) : bool :=
  ((48 <=? nat_of_ascii c) && (nat_of_ascii c <=? 57))%nat.

Fixpoint all_digits (s : string) : bool :=
  match s with
  | EmptyString => true
  | String c r => is_digit c && all_digits r
  end.

(** [/^\d+$/.test(s)]: at least one digit and nothing else up to the end
    of the input. *)
Definition digits_regex (s : string) : bool :=
  match s with
  | EmptyString => false
  | String c r => is_digit c && all_digits r
  end.

(** [z.string().min(n, msg)] and [.regex(re, msg)]: a string schema runs all
    of its checks and reports every one that fails. *)
Definition z_min (n : nat) (msg : string) (field value : string) : list Issue :=
  if (n <=? String.length value)%nat then [] else [mkIssue field msg].

Definition z_regex (re : string -> bool) (msg : string) (field value : string) : list Issue :=
  if re value then [] else [mkIssue field msg].

Definition cardNumberRequired : string := "Le numéro du document est requis".
Definition cardNumberDigits : string :=
  "Le numéro du document doit contenir uniquement des chiffres".

Definition formSchema (v : Values.t) : list Issue :=
  z_min 1 "Le type de document est requis" "documentType" (Values.documentType v)
  ++ (z_min 1 cardNumberRequired "cardNumber" (Values.cardNumber v)
      ++ z_regex digits_regex cardNumberDigits "cardNumber" (Values.cardNumber v))
  ++ z_min 1 "Le lieu de découverte est requis" "location" (Values.location v)
  ++ z_min 1 "La date de découverte est requise" "foundDate" (Values.foundDate v).

Definition defaultValues : Values.t :=
  Values.mk "id" "" "" "" (Some "").

(** The zod resolver turns the issues into the form's errors, keyed by
    field: going through the issues in order, an issue is kept only when its
    field has no error yet ([if (!errors[path]) errors[path] = ...]), so
    each field keeps its first issue. *)
Definition parseErrorSchema (zodErrors : list Issue) : list Issue :=
  fold_left
    (fun errors error =>
       if existsb (fun e => String.eqb (path e) (path error)) errors
       then errors
       else (errors ++ [error])%list)
    zodErrors [].

(** [form.handleSubmit(onValid)] with the zod resolver: the current field
    values are parsed against the schema, the resolver's errors become the
    form's errors, and [onValid] is called only when there is no issue. *)
Definition handleSubmit (onValid : Values.t -> Js unit) : Js unit :=
  values <- read formValues ;;
  modify (with_formErrors (parseErrorSchema (formSchema values))) ;;
  match formSchema values with
  | [] => onValid values
  | _ :: _ => ret tt
  end.

(** ** SignalerCarte: collaborators *)

(** The points where [onSubmit] is suspended on a network call. *)
Inductive Suspension : Type := AwaitGetUser | AwaitUpload | AwaitInsert.

Definition Suspension_eqb (a b : Suspension) : bool :=
  match a, b with
  | AwaitGetUser, AwaitGetUser | AwaitUpload, AwaitUpload | AwaitInsert, AwaitInsert => true
  | _, _ => false
  end.

(** What the outside world answers during one submission: the identity
    service, the random number rendered by the template literal, object
    storage, the database, and the suspension (if any) during which the
    user leaves the page so that the view is unmounted. *)
Record Env : Type := mkEnv {
  auth_getUser : option User;
  math_random : string;
  storage_upload : string -> string -> JsVal -> option Error;
  storage_getPublicUrl : string -> string -> string;
  db_insert : string -> list Card.t -> option Error;
  teardown : option Suspension }.

(** [s.split(sep)] for a one-character separator, and [Array.prototype.pop]. *)
Fixpoint split (sep : ascii) (s : string) : list string :=
  match s with
  | EmptyString => [EmptyString]
  | String c r =>
      if Ascii.eqb c sep then EmptyString :: split sep r
      else match split sep r with
           | h :: t => String c h :: t
           | [] => [String c EmptyString]
           end
  end.

Definition pop (l : list string) : option string :=
  last (map Some l) None.

(** A template-literal hole: [undefined] prints as such. *)
Definition interpolate (v : option string) : string :=
  match v with
  | Some s => s
  | None => "undefined"
  end.

(** [v || null] on [string | undefined]: the empty string is falsy. *)
Definition or_null (v : option string) : option string :=
  match v with
  | Some EmptyString => None
  | Some d => Some d
  | None => None
  end.

Definition unauthenticatedToast : Toast.t :=
  Toast.mk Destructive "Erreur" "Vous devez être connecté pour signaler un document".

Definition successToast : Toast.t :=
  Toast.mk Default "Signalement envoyé" "Votre signalement a été enregistré avec succès".

Definition errorToast : Toast.t :=
  Toast.mk Destructive "Erreur" "Une erreur est survenue lors de l'envoi du signalement".

(** ** SignalerCarte: handlers *)

Definition setIsSubmitting (b : bool) : Js unit :=
  emit (ESetIsSubmitting b) ;; modify (with_isSubmitting b).

Definition setFile (v : JsVal) : Js unit :=
  emit (ESetFile v) ;; modify (with_file v).

Definition navigate (to : string) : Js unit := emit (ENavigate to).

Definition console_error (label : string) (e : Error) : Js unit :=
  emit (EConsoleError label e).

(** The cleanup of the [useEffect]: [mounted.current = false; form.reset()]. *)
Definition unmount : Js unit :=
  emit EUnmount ;;
  modify (with_mounted false) ;;
  modify (with_form defaultValues []).

Section SignalerCarte.
Variable env : Env.

(** [await call]: the call is issued, and while the handler is suspended
    the view is torn down if the environment says so. *)
Definition await {A} (p : Suspension) (call : Js A) : Js A :=
  a <- call ;;
  m <- read mounted ;;
  (match teardown env with
   | Some q => if Suspension_eqb p q && m then unmount else ret tt
   | None => ret tt
   end) ;;
  ret a.

Definition getUser : Js (option User) :=
  emit (EGetUser (auth_getUser env)) ;; ret (auth_getUser env).

Definition upload (bucket key : string) (body : JsVal) : Js (option Error) :=
  emit (EUpload bucket key body (storage_upload env bucket key body)) ;;
  ret (storage_upload env bucket key body).

Definition getPublicUrl (bucket key : string) : Js string :=
  emit (EGetPublicUrl bucket key (storage_getPublicUrl env bucket key)) ;;
  ret (storage_getPublicUrl env bucket key).

Definition insert (table : string) (rows : list Card.t) : Js (option Error) :=
  emit (EInsert table rows (db_insert env table rows)) ;;
  ret (db_insert env table rows).

Definition onSubmit (values : Values.t) : Js unit :=
  function_ (
    m <- read mounted ;;
    (if negb m then return_ else ret tt) ;;
    (* the [file] state captured by the closure *)
    file <- read file ;;
    try_catch_finally
      (setIsSubmitting true ;;
       user <- await AwaitGetUser getUser ;;
       match user with
       | None => toast unauthenticatedToast ;; return_
       | Some user =>
           photoUrl <-
             (if truthy file then
                fileExt <-
                  match prop_name file with
                  | Some name => ret (pop (split "." name))
                  | None =>
                      throw (TypeError
                        "Cannot read properties of undefined (reading 'split')")
                  end ;;
                let fileName := math_random env ++ "." ++ interpolate fileExt in
                let filePath := fileName in
                uploadError <- await AwaitUpload (upload "card_photos" filePath file) ;;
                match uploadError with
                | Some e => throw e
                | None => ret tt
                end ;;
                publicUrl <- getPublicUrl "card_photos" filePath ;;
                ret (Some publicUrl)
              else ret None) ;;
           error <- await AwaitInsert (insert "reported_cards" [
             Card.mk (id user)
                     (Values.cardNumber values)
                     (Values.location values)
                     (Values.foundDate values)
                     (or_null (Values.description values))
                     photoUrl
                     (Values.documentType values) ]) ;;
           match error with
           | Some e => throw e
           | None => ret tt
           end ;;
           toast successToast ;;
           m <- read mounted ;;
           if m then navigate "/" else ret tt
       end)
      (fun error =>
         console_error "Erreur lors de la soumission:" error ;;
         toast errorToast)
      (m <- read mounted ;;
       if m then setIsSubmitting false else ret tt)).

Definition handleFileChange (newFile : JsVal) : Js unit :=
  function_ (
    m <- read mounted ;;
    if m then setFile newFile else ret tt).

(** [<form onSubmit={form.handleSubmit(onSubmit)}>]. *)
Definition submitForm : Js unit := handleSubmit onSubmit.
End SignalerCarte.

(** [<PhotoUpload onFileChange={handleFileChange} />]: the wiring the
    page's JSX asks for, the widget's two entry points with the page's
    handler as owner. It is what a drop or a pick would do if the page's
    binding of [PhotoUpload] were the widget; the binding the page really
    has is [imported_PhotoUpload] below. *)
Definition photoDrop (files : list File.t) : Js unit :=
  handleDrop handleFileChange files.

Definition photoPick (files : option (list File.t)) : Js unit :=
  handleFileInputChange handleFileChange files.

(** ** Reading traces *)

Definition toasts (l : list Effect) : list Toast.t :=
  flat_map (fun e => match e with EToast t => [t] | _ => [] end) l.

(** Calls that write to the backend. *)
Definition isNetworkWrite (e : Effect) : bool :=
  match e with
  | EUpload _ _ _ _ | EInsert _ _ _ => true
  | _ => false
  end.

(** Calls that change the state of the [SignalerCarte] view or leave it. *)
Definition mutatesView (e : Effect) : bool :=
  match e with
  | ESetIsSubmitting _ | ESetFile _ | ENavigate _ => true
  | _ => false
  end.

(** The rows of every insert call in a trace. *)
Definition inserted (l : list Effect) : list Card.t :=
  flat_map (fun e => match e with EInsert _ rows _ => rows | _ => [] end) l.

(** ** Vocabulary of the specification *)

(** The File Validator's answers. In the code the validator is the first
    half of [validateAndHandleFile]; its answer is visible in what the
    function does next. *)
Inductive Reason : Type := UnsupportedType | TooLarge.
Inductive Verdict : Type := Accept | Reject (r : Reason).

Definition rejectionToast (r : Reason) : Toast.t :=
  match r with
  | UnsupportedType => unsupportedTypeToast
  | TooLarge => tooLargeToast
  end.

(** On [Reject r] the function raises the notification of [r] and returns
    without touching any state or calling the owner; on [Accept] it does
    nothing but call the owner with the file wrapped in an event. *)
Definition verdictOutcome
    (onFileChange : JsVal -> Js unit) (f : File.t) (v : Verdict) (s : State) : Outcome unit :=
  match v with
  | Reject r => mkOutcome (Normal tt) s [EToast (rejectionToast r)]
  | Accept => function_ (onFileChange (JEvent [f])) s
  end.

Definition validatorReturns (f : File.t) (v : Verdict) : Prop :=
  forall onFileChange s,
    validateAndHandleFile onFileChange f s = verdictOutcome onFileChange f v s.

Definition setsFile (e : Effect) : bool :=
  match e with
  | ESetFile _ => true
  | _ => false
  end.

Definition isInsert (e : Effect) : bool :=
  match e with
  | EInsert _ _ _ => true
  | _ => false
  end.

(** A backend call that answered with a failure: no user, or an error. *)
Definition isFailure (e : Effect) : bool :=
  match e with
  | EGetUser None | EUpload _ _ _ (Some _) | EInsert _ _ (Some _) => true
  | _ => false
  end.

Definition digitChars : list ascii :=
  ["0"; "1"; "2"; "3"; "4"; "5"; "6"; "7"; "8"; "9"]%char.

(** A trace respects teardown when nothing after an [EUnmount] changes the
    state of the view or navigates. *)
Fixpoint teardownRespected (l : list Effect) : bool :=
  match l with
  | [] => true
  | EUnmount :: r => forallb (fun e => negb (mutatesView e)) r && teardownRespected r
  | _ :: r => teardownRespected r
  end.

(** ** Sample inputs *)

Definition gifFile : File.t := File.mk "scan.gif" "image/gif" 9000000.
Definition hugePng : File.t := File.mk "carte.png" "image/png" 6000000.
Definition smallJpeg : File.t := File.mk "carte.jpg" "image/jpeg" 2097152.

Definition validValues : Values.t :=
  Values.mk "id" "123456" "Dakar" "2024-05-01" (Some "").

(** A freshly mounted page with a filled-in form and no photo. *)
Definition freshView : State := mkState false JNull true validValues [] false.

Definition alice : User := mkUser "user-1".

Definition cdn (bucket key : string) : string :=
  "https://cdn.example/" ++ bucket ++ "/" ++ key.

(** An environment with fixed answers. *)
Definition world (user : option User) (uploadAnswer insertAnswer : option Error)
    (leave : option Suspension) : Env :=
  mkEnv user "0.42" (fun _ _ _ => uploadAnswer) cdn (fun _ _ => insertAnswer) leave.

(** ** Events on the photo widget

    The JSX of [PhotoUpload] binds [onDragOver], [onDragLeave] and [onDrop]
    of the drop zone and [onChange] of the hidden file input to the four
    handlers. *)
Inductive WidgetEvent : Type :=
| DragOver
| DragLeave
| Drop (files : list File.t)
| Pick (files : option (list File.t)).

Definition dispatch (onFileChange : JsVal -> Js unit) (ev : WidgetEvent) : Js unit :=
  match ev with
  | DragOver => handleDragOver
  | DragLeave => handleDragLeave
  | Drop files => handleDrop onFileChange files
  | Pick files => handleFileInputChange onFileChange files
  end.

(** The browser delivers events one after the other; each handler starts
    from the state the previous one left, whatever way it completed. *)
Fixpoint dispatchAll (onFileChange : JsVal -> Js unit) (evs : list WidgetEvent)
    (s : State) : State * list Effect :=
  match evs with
  | [] => (s, [])
  | ev :: rest =>
      let o := dispatch onFileChange ev s in
      let r := dispatchAll onFileChange rest (final o) in
      (fst r, (emitted o ++ snd r)%list)
  end.

(** ** Module bindings *)

(** A component seen from its events: given the owner's callback, what each
    event does. *)
Definition Component : Type := (JsVal -> Js unit) -> WidgetEvent -> Js unit.

(** What a module exports: its default export, if it has one, and its named
    exports. *)
Record Exports : Type := mkExports {
  export_default : option Component;
  export_named : list (string * Component) }.

(** [PhotoUpload.tsx] has a single export, [export const PhotoUpload]. *)
Definition PhotoUpload_tsx : Exports :=
  mkExports None [("PhotoUpload", dispatch)].

(** The page's [import PhotoUpload from "@/components/card-report/PhotoUpload"]
    binds the default export of that module; [None] is [undefined]. *)
Definition imported_PhotoUpload : option Component :=
  export_default PhotoUpload_tsx.

(** The widget the page mounts for its [<PhotoUpload ... />] element, with
    [handleFileChange] as owner: there is one only if the element type is a
    component. *)
Definition pageWidget : option (WidgetEvent -> Js unit) :=
  match imported_PhotoUpload with
  | Some widget => Some (widget handleFileChange)
  | None => None
  end.

(** The file a drop or a pick puts forward: [files[0]]. *)
Definition candidate (ev : WidgetEvent) : option File.t :=
  match ev with
  | Drop files => hd_error files
  | Pick (Some files) => hd_error files
  | _ => None
  end.

(** ** What is rendered

    The parts of the two render functions that depend on state. *)

(** [PhotoUpload]: the two interpolated class-name fragments of the drop zone,
    the text of the button ([None] when it renders [undefined]) and whether
    the two-line hint is present. The [file] prop is [None] when the owner
    does not pass it. *)
Record PhotoUploadView : Type := mkPhotoUploadView {
  dropZoneBorder : string;
  dropZoneBackground : string;
  buttonText : option string;
  hintShown : bool }.

Definition prop_truthy (v : option JsVal) : bool :=
  match v with
  | Some v => truthy v
  | None => false
  end.

Definition PhotoUpload_render (file : option JsVal) (isDragging : bool) : PhotoUploadView :=
  mkPhotoUploadView
    (if isDragging then "border-primary bg-primary/5" else "border-gray-300")
    (if prop_truthy file then "bg-gray-50" else "")
    (if prop_truthy file
     then match file with Some v => prop_name v | None => None end
     else Some "Ajouter une photo")
    (negb (prop_truthy file)).

(** The props the page passes: [onFileChange={handleFileChange}] and
    [currentFile={file}]. *)
Record PhotoUploadProps : Type := mkPhotoUploadProps {
  props_file : option JsVal;
  props_currentFile : option JsVal }.

(** [SignalerCarte]: nothing once unmounted; otherwise the submit button
    ([disabled], label) and the photo widget, which destructures [file]
    from its props. *)
Record PageView : Type := mkPageView {
  submitDisabled : bool;
  submitLabel : string;
  photoUpload : PhotoUploadView }.

Definition SignalerCarte_render (s : State) : option PageView :=
  if negb (mounted s) then None
  else
    let props := mkPhotoUploadProps None (Some (file s)) in
    Some (mkPageView
            (isSubmitting s)
            (if isSubmitting s then "Envoi en cours..." else "Envoyer le signalement")
            (PhotoUpload_render (props_file props) (isDragging s))).

(** ** More ways to read traces *)

Definition isBackendCall (e : Effect) : bool :=
  match e with
  | EGetUser _ | EUpload _ _ _ _ | EGetPublicUrl _ _ _ | EInsert _ _ _ => true
  | _ => false
  end.

(** The position of a backend call in the workflow. *)
Definition callRank (e : Effect) : nat :=
  match e with
  | EGetUser _ => 0
  | EUpload _ _ _ _ => 1
  | EGetPublicUrl _ _ _ => 2
  | _ => 3
  end.

Definition setsIsSubmitting (e : Effect) : bool :=
  match e with
  | ESetIsSubmitting _ => true
  | _ => false
  end.

(** A file that passes both checks of the validator. *)
Definition acceptable (f : File.t) : Prop :=
  In (File.type f) ["image/jpeg"; "image/png"; "image/jpg"]
  /\ (File.size f <= 5242880)%N.

(** The issues the schema raises on one field. *)
Definition issuesOn (field : string) (v : Values.t) : list Issue :=
  filter (fun i => String.eqb (path i) field) (formSchema v).

(** What follows the first insert call of a trace, if there is one. *)
Fixpoint afterInsert (l : list Effect) : option (list Effect) :=
  match l with
  | [] => None
  | EInsert _ _ _ :: r => Some r
  | _ :: r => afterInsert r
  end.

(** ** Symbolic execution of handlers *)

Ltac run_js :=
  cbv -[String.append split pop interpolate or_null formSchema
        unauthenticatedToast successToast errorToast unsupportedTypeToast
        tooLargeToast defaultValues N.ltb].

(** Case analysis on the answer of a collaborator the execution is stuck on. *)
Ltac split_answer :=
  match goal with
  | |- context [match ?f ?a ?b ?c with Some _ => _ | None => _ end] =>
      is_var f; destruct (f a b c) eqn:?
  | |- context [match ?f ?a ?b with Some _ => _ | None => _ end] =>
      is_var f; destruct (f a b) eqn:?
  end.

Ltac exec := run_js; repeat (split_answer; run_js).

(** Every way a submission can go: the view, the user, the attached
    value, the teardown point, then the answers met along the way. *)
Ltac all_runs env s values :=
  destruct env as [gu rnd up url ins td];
  destruct s as [sub att m vals errs drag];
  destruct values as [dt cn loc fd descr];
  destruct m; destruct gu as [[uid]|]; destruct att as [|af|afs];
  destruct td as [[]|]; exec.

(** Closing a goal once a run has been reduced to an explicit trace. *)
Ltac tidy :=
  repeat match goal with
  | H : _ \/ _ |- _ => destruct H
  | H : _ /\ _ |- _ => destruct H
  | H : exists _, _ |- _ => destruct H
  | H : False |- _ => contradiction
  | H : ?x = ?x -> _ |- _ => specialize (H eq_refl)
  end;
  try discriminate; try congruence.

(** Equalities between constructors, opened and substituted. *)
Ltac open_eqs :=
  repeat match goal with
  | H : Some _ = Some _ |- _ => injection H as H
  | H : mkUser _ = mkUser _ |- _ => injection H as H
  | H : JFile _ = JFile _ |- _ => injection H as H
  end;
  subst.

(** A collaborator assumed to accept every call cannot have refused one. *)
Ltac refused_nothing :=
  match goal with
  | Hall : forall x, _ = None, E : _ = Some _ |- _ => rewrite Hall in E; discriminate E
  end.

(** ** Basic facts *)

Lemma includes_In (l : list string) (x : string) :
  includes l x = true <-> In x l.
Proof.
  unfold includes. rewrite existsb_exists. split.
  - intros [y [Hy He]]. apply String.eqb_eq in He. now subst.
  - intros H. exists x. split; [assumption | apply String.eqb_refl].
Qed.

Lemma includes_not_In (l : list string) (x : string) :
  includes l x = false <-> ~ In x l.
Proof.
  rewrite <- includes_In. destruct (includes l x); split; congruence.
Qed.

Lemma function_ret_eta (o : Js unit) (s : State) :
  (ret tt ;; (ret tt ;; o))%monad s = o s.
Proof.
  cbn. unfold js_bind, js_ret. destruct (o s) as [c s' l]. reflexivity.
Qed.

Lemma emitted_function_ (body : Js unit) (s : State) :
  emitted (function_ body s) = emitted (body s).
Proof.
  unfold function_. destruct (body s) as [[[]| |e] s1 l1]; reflexivity.
Qed.

(** The monad laws, pointwise. *)
Lemma js_bind_ret_l {A B} (a : A) (k : A -> Js B) (s : State) :
  (x <- ret a ;; k x)%monad s = k a s.
Proof.
  cbn. unfold js_bind, js_ret. destruct (k a s) as [c s2 l2]. reflexivity.
Qed.

Lemma js_bind_ret_r {A} (m : Js A) (s : State) :
  (x <- m ;; ret x)%monad s = m s.
Proof.
  cbn. unfold js_bind, js_ret. destruct (m s) as [[a| |e] s1 l1];
    rewrite ?app_nil_r; reflexivity.
Qed.

Lemma js_bind_assoc {A B C} (m : Js A) (k : A -> Js B) (h : B -> Js C) (s : State) :
  (y <- (x <- m ;; k x) ;; h y)%monad s = (x <- m ;; (y <- k x ;; h y))%monad s.
Proof.
  cbn. unfold js_bind. destruct (m s) as [[a| |e] s1 l1]; try reflexivity.
  destruct (k a s1) as [[b| |e] s2 l2]; try reflexivity.
  destruct (h b s2) as [c s3 l3]. now rewrite app_assoc.
Qed.

(** [return] inside [try] still runs the [finally] block, and a thrown
    error reaches the handler before it. *)
Lemma try_return_runs_finally (handler : Error -> Js unit) (s : State) :
  function_ (try_catch_finally (emit EPreventDefault ;; return_) handler
               (emit (ESetIsSubmitting false))) s
  = mkOutcome (Normal tt) s [EPreventDefault; ESetIsSubmitting false].
Proof. reflexivity. Qed.

Lemma try_throw_runs_handler_then_finally (e : Error) (s : State) :
  try_catch_finally (throw e) (fun err => emit (EConsoleError "caught" err))
    (emit (ESetIsSubmitting false)) s
  = mkOutcome (Normal tt) s [EConsoleError "caught" e; ESetIsSubmitting false].
Proof. reflexivity. Qed.

Lemma accepted_run (onFileChange : JsVal -> Js unit) (f : File.t) (s : State) :
  includes allowedTypes (File.type f) = true ->
  (maxSize <? File.size f)%N = false ->
  validateAndHandleFile onFileChange f s = function_ (onFileChange (JEvent [f])) s.
Proof.
  intros Ht Hs. unfold validateAndHandleFile. rewrite Ht, Hs. cbn [negb].
  unfold function_. now rewrite function_ret_eta.
Qed.

Lemma rejected_type_run (onFileChange : JsVal -> Js unit) (f : File.t) (s : State) :
  includes allowedTypes (File.type f) = false ->
  validateAndHandleFile onFileChange f s
  = mkOutcome (Normal tt) s [EToast unsupportedTypeToast].
Proof.
  intros Ht. unfold validateAndHandleFile. rewrite Ht. reflexivity.
Qed.

Lemma rejected_size_run (onFileChange : JsVal -> Js unit) (f : File.t) (s : State) :
  includes allowedTypes (File.type f) = true ->
  (maxSize <? File.size f)%N = true ->
  validateAndHandleFile onFileChange f s
  = mkOutcome (Normal tt) s [EToast tooLargeToast].
Proof.
  intros Ht Hs. unfold validateAndHandleFile. rewrite Ht, Hs. reflexivity.
Qed.

Lemma maxSize_value : maxSize = 5242880%N.
Proof. reflexivity. Qed.

(** The answer of the validator is unique: the three behaviours differ. *)
Lemma validatorReturns_unique (f : File.t) (v v' : Verdict) :
  validatorReturns f v -> validatorReturns f v' -> v = v'.
Proof.
  intros H H'.
  pose (s0 := mkState false JNull true defaultValues [] false).
  specialize (H setFile s0). specialize (H' setFile s0). rewrite H in H'.
  destruct v as [|[]], v' as [|[]]; try reflexivity; discriminate H'.
Qed.

(** ** The File Validator *)

(** C1. The validator answers Reject(UnsupportedType) for every file whose
    MIME type is outside the allow-list, whatever its size; for an allowed
    type it answers Reject(TooLarge) above 5,242,880 bytes and Accept up to
    that size. The type is examined first, and a rejection carries the
    notification of the first failing check only. *)
Theorem validator_type_before_size (f : File.t) :
  (~ In (File.type f) ["image/jpeg"; "image/png"; "image/jpg"] ->
     validatorReturns f (Reject UnsupportedType))
  /\ (In (File.type f) ["image/jpeg"; "image/png"; "image/jpg"] ->
      (File.size f > 5242880)%N ->
      validatorReturns f (Reject TooLarge))
  /\ (In (File.type f) ["image/jpeg"; "image/png"; "image/jpg"] ->
      (File.size f <= 5242880)%N ->
      validatorReturns f Accept).
Proof.
  repeat split.
  - intros Hn cb s. apply rejected_type_run. now apply includes_not_In.
  - intros Hi Hs cb s. apply rejected_size_run.
    + now apply includes_In.
    + apply N.ltb_lt. rewrite maxSize_value. lia.
  - intros Hi Hs cb s. apply accepted_run.
    + now apply includes_In.
    + apply N.ltb_ge. rewrite maxSize_value. lia.
Qed.

Lemma validator_type_before_size_witness :
  validatorReturns gifFile (Reject UnsupportedType)
  /\ validatorReturns hugePng (Reject TooLarge)
  /\ validatorReturns smallJpeg Accept.
Proof.
  split; [| split].
  - apply (proj1 (validator_type_before_size gifFile)).
    simpl. intuition discriminate.
  - apply (proj1 (proj2 (validator_type_before_size hugePng))).
    + simpl. auto.
    + reflexivity.
  - apply (proj2 (proj2 (validator_type_before_size smallJpeg))).
    + simpl. auto.
    + discriminate.
Defined.

(** ** The Photo Picker Widget *)

Lemma function_not_returned (body : Js unit) (s : State) :
  completion (function_ body s) <> Returned.
Proof.
  unfold function_. destruct (body s) as [[[]| |e] s1 l1]; discriminate.
Qed.

Lemma validate_not_returned (cb : JsVal -> Js unit) (f : File.t) (s : State) :
  completion (validateAndHandleFile cb f s) <> Returned.
Proof. apply function_not_returned. Qed.

(** A drop prevents the browser default, clears the drag highlight and
    hands the first dropped file to the validation path. *)
Lemma handleDrop_run (cb : JsVal -> Js unit) (f : File.t) (rest : list File.t) (s : State) :
  handleDrop cb (f :: rest) s
  = match validateAndHandleFile cb f (with_isDragging false s) with
    | mkOutcome c s1 l1 => mkOutcome c s1 (EPreventDefault :: ESetIsDragging false :: l1)
    end.
Proof.
  pose proof (validate_not_returned cb f (with_isDragging false s)) as Hnr.
  unfold handleDrop. cbn -[validateAndHandleFile].
  unfold function_ at 1, js_bind, emit, modify.
  destruct (validateAndHandleFile cb f (with_isDragging false s)) as [[[]| |e] s1 l1];
    cbn in *; congruence.
Qed.

(** A pick hands the first selected file to the same path. *)
Lemma handleFileInputChange_run
    (cb : JsVal -> Js unit) (f : File.t) (rest : list File.t) (s : State) :
  handleFileInputChange cb (Some (f :: rest)) s = validateAndHandleFile cb f s.
Proof.
  pose proof (validate_not_returned cb f s) as Hnr.
  unfold handleFileInputChange. cbn -[validateAndHandleFile].
  unfold function_ at 1.
  destruct (validateAndHandleFile cb f s) as [[[]| |e] s1 l1]; cbn in *; congruence.
Qed.

Lemma handleFileChange_mounted (v : JsVal) (s : State) :
  mounted s = true ->
  handleFileChange v s = mkOutcome (Normal tt) (with_file v s) [ESetFile v].
Proof.
  intros Hm. destruct s as [sub att m vals errs drag]. cbn in Hm. subst m. reflexivity.
Qed.

Lemma handleFileChange_unmounted (v : JsVal) (s : State) :
  mounted s = false ->
  handleFileChange v s = mkOutcome (Normal tt) s [].
Proof.
  intros Hm. destruct s as [sub att m vals errs drag]. cbn in Hm. subst m. reflexivity.
Qed.

(** What a rejected file does, whoever the owner is. *)
Lemma rejected_run (f : File.t) :
  ~ In (File.type f) allowedTypes \/ (File.size f > maxSize)%N ->
  exists r : Reason, forall cb s,
    validateAndHandleFile cb f s = mkOutcome (Normal tt) s [EToast (rejectionToast r)].
Proof.
  intros H. destruct (includes allowedTypes (File.type f)) eqn:Ht.
  - destruct H as [H | H].
    + apply includes_not_In in H. congruence.
    + exists TooLarge. intros cb s. apply rejected_size_run; [assumption |].
      apply N.ltb_lt. lia.
  - exists UnsupportedType. intros cb s. now apply rejected_type_run.
Qed.

(** C8. Whatever the state of the form, a candidate file that the validator
    rejects (unsupported type or too large) is never attached: the owner's
    callback is not invoked (the run is the same for every callback: one
    notification and nothing else), and through either entry point of the
    widget the previously attached file is still the attached file. *)
Theorem rejected_file_keeps_attachment (f : File.t) (s : State) :
  ~ In (File.type f) ["image/jpeg"; "image/png"; "image/jpg"]
  \/ (File.size f > 5242880)%N ->
  exists r : Reason,
    (forall onFileChange,
       validateAndHandleFile onFileChange f s
       = mkOutcome (Normal tt) s [EToast (rejectionToast r)])
    /\ (forall rest,
          file (final (photoDrop (f :: rest) s)) = file s
          /\ Forall (fun e => setsFile e = false) (emitted (photoDrop (f :: rest) s)))
    /\ (forall rest,
          file (final (photoPick (Some (f :: rest)) s)) = file s
          /\ Forall (fun e => setsFile e = false) (emitted (photoPick (Some (f :: rest)) s))).
Proof.
  intros H. destruct (rejected_run f H) as [r Hr]. exists r. repeat split.
  - intros cb. apply Hr.
  - unfold photoDrop. rewrite handleDrop_run, Hr. reflexivity.
  - unfold photoDrop. rewrite handleDrop_run, Hr. cbn.
    repeat constructor.
  - unfold photoPick. rewrite handleFileInputChange_run, Hr. reflexivity.
  - unfold photoPick. rewrite handleFileInputChange_run, Hr. cbn.
    repeat constructor.
Qed.

Lemma rejected_file_keeps_attachment_witness :
  exists r : Reason,
    (forall onFileChange,
       validateAndHandleFile onFileChange hugePng (with_file (JFile smallJpeg) freshView)
       = mkOutcome (Normal tt) (with_file (JFile smallJpeg) freshView)
           [EToast (rejectionToast r)])
    /\ (forall rest,
          file (final (photoDrop (hugePng :: rest) (with_file (JFile smallJpeg) freshView)))
          = file (with_file (JFile smallJpeg) freshView)
          /\ Forall (fun e => setsFile e = false)
               (emitted (photoDrop (hugePng :: rest) (with_file (JFile smallJpeg) freshView))))
    /\ (forall rest,
          file (final (photoPick (Some (hugePng :: rest))
                         (with_file (JFile smallJpeg) freshView)))
          = file (with_file (JFile smallJpeg) freshView)
          /\ Forall (fun e => setsFile e = false)
               (emitted (photoPick (Some (hugePng :: rest))
                           (with_file (JFile smallJpeg) freshView)))).
Proof.
  apply (rejected_file_keeps_attachment hugePng (with_file (JFile smallJpeg) freshView)).
  right. reflexivity.
Defined.

(** C6, on the code. For a file that the widget accepts, by drop or by
    pick and whoever the owner is, the widget does nothing of its own but
    call the owner once, so it makes no backend call; what it hands over,
    however, is the synthetic event wrapping the file, which is not the
    [File]. The page's [handleFileChange] stores its argument as it comes,
    without unwrapping it. And the page as written mounts no widget at all:
    its default import of [PhotoUpload] finds no default export. An accepted
    file therefore never becomes the page's attached file. *)
Theorem accepted_file_is_reported_as_event
    (onFileChange : JsVal -> Js unit) (f : File.t) (rest : list File.t) (s : State) :
  In (File.type f) ["image/jpeg"; "image/png"; "image/jpg"] ->
  (File.size f <= 5242880)%N ->
  handleDrop onFileChange (f :: rest) s
  = match function_ (onFileChange (JEvent [f])) (with_isDragging false s) with
    | mkOutcome c s1 l1 => mkOutcome c s1 (EPreventDefault :: ESetIsDragging false :: l1)
    end
  /\ handleFileInputChange onFileChange (Some (f :: rest)) s
     = function_ (onFileChange (JEvent [f])) s
  /\ emitted (validateAndHandleFile onFileChange f s)
     = emitted (onFileChange (JEvent [f]) s)
  /\ JEvent [f] <> JFile f
  /\ (forall v s', mounted s' = true -> file (final (handleFileChange v s')) = v)
  /\ imported_PhotoUpload = None
  /\ pageWidget = None.
Proof.
  intros Ht Hs.
  assert (Hi : includes allowedTypes (File.type f) = true) by now apply includes_In.
  assert (Hz : (maxSize <? File.size f)%N = false)
    by (apply N.ltb_ge; rewrite maxSize_value; lia).
  split; [| split; [| split; [| split; [| split; [| split]]]]].
  - rewrite handleDrop_run, accepted_run by assumption. reflexivity.
  - rewrite handleFileInputChange_run. now apply accepted_run.
  - rewrite accepted_run by assumption. apply emitted_function_.
  - discriminate.
  - intros v s' Hm. now rewrite handleFileChange_mounted.
  - reflexivity.
  - reflexivity.
Qed.

Lemma accepted_file_is_reported_as_event_witness :
  handleFileInputChange setFile (Some [smallJpeg]) freshView
  = function_ (setFile (JEvent [smallJpeg])) freshView
  /\ file (final (handleFileInputChange setFile (Some [smallJpeg]) freshView))
     = JEvent [smallJpeg].
Proof.
  destruct (accepted_file_is_reported_as_event setFile smallJpeg [] freshView)
    as (_ & Hp & _).
  - simpl. auto.
  - discriminate.
  - split; [exact Hp | rewrite Hp; reflexivity].
Defined.

(** ** The validation schema *)

Lemma is_digit_In (c : ascii) : is_digit c = true <-> In c digitChars.
Proof.
  split.
  - destruct c as [[] [] [] [] [] [] [] []]; intros H;
      try discriminate H; cbv; auto 12.
  - intros H. cbv [digitChars In] in H.
    repeat (destruct H as [H | H]; [subst c; reflexivity |]). contradiction.
Qed.

Lemma all_digits_Forall (s : string) :
  all_digits s = true
  <-> Forall (fun c => In c digitChars) (list_ascii_of_string s).
Proof.
  induction s as [| c r IH]; cbn [all_digits list_ascii_of_string].
  - split; [constructor | reflexivity].
  - rewrite andb_true_iff, is_digit_In, IH. split.
    + intros [H1 H2]. now constructor.
    + intros H. inversion H; subst. now split.
Qed.

(** The regular expression accepts exactly the non-empty strings of digits. *)
Lemma digits_regex_spec (s : string) :
  digits_regex s = true
  <-> s <> "" /\ Forall (fun c => In c digitChars) (list_ascii_of_string s).
Proof.
  rewrite <- all_digits_Forall. destruct s as [| c r]; cbn [digits_regex all_digits].
  - split; [discriminate | intros [H _]; now elim H].
  - split; [intros H; split; [discriminate | exact H] | intros [_ H]; exact H].
Qed.

Lemma digits_regex_rejects (s : string) :
  s = "" \/ (exists c, In c (list_ascii_of_string s) /\ ~ In c digitChars) ->
  digits_regex s = false.
Proof.
  intros H. destruct (digits_regex s) eqn:E; [| reflexivity].
  apply digits_regex_spec in E. destruct E as [Hne Hall].
  destruct H as [H | [c [Hin Hnd]]].
  - contradiction.
  - rewrite Forall_forall in Hall. elim Hnd. now apply Hall.
Qed.

Lemma z_min_path (n : nat) (msg field value other : string) :
  field <> other -> Forall (fun i => path i <> other) (z_min n msg field value).
Proof.
  intros H. unfold z_min. destruct (n <=? String.length value)%nat; repeat constructor.
  exact H.
Qed.

Lemma handleSubmit_valid (onValid : Values.t -> Js unit) (s : State) :
  formSchema (formValues s) = [] ->
  handleSubmit onValid s = onValid (formValues s) (with_formErrors [] s).
Proof.
  intros H. unfold handleSubmit. cbn. unfold js_bind, read, modify. rewrite H.
  change (parseErrorSchema []) with (@nil Issue).
  destruct (onValid (formValues s) (with_formErrors [] s)) as [c s2 l2]. reflexivity.
Qed.

Lemma handleSubmit_invalid (onValid : Values.t -> Js unit) (s : State) :
  formSchema (formValues s) <> [] ->
  handleSubmit onValid s
  = mkOutcome (Normal tt)
      (with_formErrors (parseErrorSchema (formSchema (formValues s))) s) [].
Proof.
  intros H. unfold handleSubmit. cbn. unfold js_bind, read, modify.
  destruct (formSchema (formValues s)) as [| i l]; [now elim H | reflexivity].
Qed.

(** C7. A form whose [cardNumber] is empty or contains a character that is
    not a digit is stopped by the schema: the issues include one on
    [cardNumber], [handleSubmit] records the form's errors and does not
    call the submission handler, so nothing is emitted and the in-flight
    flag is untouched. A
    non-empty [cardNumber] made of digits only raises no issue on that field,
    and the form is submitted as soon as the other required fields are
    filled in; "123" passes and "12a3" is rejected. *)
Theorem cardNumber_must_be_digits :
  (forall (s : State) (onValid : Values.t -> Js unit),
     Values.cardNumber (formValues s) = ""
     \/ (exists c, In c (list_ascii_of_string (Values.cardNumber (formValues s)))
                   /\ ~ In c digitChars) ->
     In (mkIssue "cardNumber" cardNumberDigits) (formSchema (formValues s))
     /\ handleSubmit onValid s
        = mkOutcome (Normal tt)
            (with_formErrors (parseErrorSchema (formSchema (formValues s))) s) []
     /\ forall env,
          emitted (submitForm env s) = []
          /\ isSubmitting (final (submitForm env s)) = isSubmitting s)
  /\ (forall (s : State) (onValid : Values.t -> Js unit),
        Values.cardNumber (formValues s) <> "" ->
        Forall (fun c => In c digitChars)
          (list_ascii_of_string (Values.cardNumber (formValues s))) ->
        Forall (fun i => path i <> "cardNumber") (formSchema (formValues s))
        /\ (Values.documentType (formValues s) <> "" ->
            Values.location (formValues s) <> "" ->
            Values.foundDate (formValues s) <> "" ->
            handleSubmit onValid s = onValid (formValues s) (with_formErrors [] s)))
  /\ formSchema (Values.mk "id" "123" "Dakar" "2024-05-01" None) = []
  /\ formSchema (Values.mk "id" "12a3" "Dakar" "2024-05-01" None)
     = [mkIssue "cardNumber" cardNumberDigits].
Proof.
  split; [| split; [| split; reflexivity]].
  - intros s onValid H. apply digits_regex_rejects in H.
    assert (Hin : In (mkIssue "cardNumber" cardNumberDigits) (formSchema (formValues s))).
    { unfold formSchema, z_regex. rewrite H.
      rewrite !in_app_iff. right. left. right. now left. }
    assert (Hne : formSchema (formValues s) <> []).
    { intros E. rewrite E in Hin. contradiction. }
    split; [exact Hin |]. split; [now apply handleSubmit_invalid |].
    intros env. unfold submitForm. rewrite handleSubmit_invalid by exact Hne.
    split; reflexivity.
  - intros s onValid Hne Hall.
    assert (Hre : digits_regex (Values.cardNumber (formValues s)) = true).
    { apply digits_regex_spec. now split. }
    assert (Hlen : z_min 1 cardNumberRequired "cardNumber"
                     (Values.cardNumber (formValues s)) = []).
    { destruct (Values.cardNumber (formValues s)); [now elim Hne | reflexivity]. }
    split.
    + unfold formSchema, z_regex. rewrite Hre, Hlen. cbn [app].
      rewrite !Forall_app. repeat split; try (apply z_min_path; discriminate).
    + intros Hd Hl Hf. apply handleSubmit_valid.
      unfold formSchema, z_regex. rewrite Hre, Hlen. unfold z_min.
      destruct (Values.documentType (formValues s)); [now elim Hd |].
      destruct (Values.location (formValues s)); [now elim Hl |].
      destruct (Values.foundDate (formValues s)); [now elim Hf |].
      reflexivity.
Qed.

Lemma cardNumber_must_be_digits_witness :
  In (mkIssue "cardNumber" cardNumberDigits)
    (formSchema (formValues (with_form (Values.mk "id" "12a3" "Dakar" "2024-05-01" None) []
                               freshView)))
  /\ Forall (fun i => path i <> "cardNumber") (formSchema (formValues freshView)).
Proof.
  split.
  - refine (proj1 (proj1 cardNumber_must_be_digits
                     (with_form (Values.mk "id" "12a3" "Dakar" "2024-05-01" None) []
                        freshView)
                     (fun _ => ret tt) _)).
    right. exists "a"%char. split.
    + simpl. auto.
    + cbv. intuition discriminate.
  - refine (proj1 (proj1 (proj2 cardNumber_must_be_digits) freshView (fun _ => ret tt) _ _)).
    + discriminate.
    + cbn. repeat (apply Forall_cons; [cbv; auto 12 |]). apply Forall_nil.
Defined.

(** ** The Submission Workflow *)

(** The identity lookup of a submission answers "nobody" exactly when the
    handler was entered on a mounted view and no user is signed in. *)
Lemma getUser_none_iff (env : Env) (values : Values.t) (s : State) :
  In (EGetUser None) (emitted (onSubmit env values s))
  <-> mounted s = true /\ auth_getUser env = None.
Proof.
  all_runs env s values; split; intros H; tidy; auto.
Qed.

(** C2. Whenever the identity lookup of a submission resolves no
    authenticated user, the only notification is the "you must be signed in"
    one and the run contains no backend write: neither a storage upload nor
    a database insert. *)
Theorem unauthenticated_aborts_before_any_write
    (env : Env) (values : Values.t) (s : State) :
  In (EGetUser None) (emitted (onSubmit env values s)) ->
  toasts (emitted (onSubmit env values s)) = [unauthenticatedToast]
  /\ Forall (fun e => isNetworkWrite e = false) (emitted (onSubmit env values s)).
Proof.
  all_runs env s values; intros H; tidy; split;
    solve [reflexivity | repeat constructor].
Qed.

Lemma unauthenticated_aborts_before_any_write_witness :
  toasts (emitted (onSubmit (world None None None None) validValues
                     (with_file (JFile smallJpeg) freshView)))
  = [unauthenticatedToast]
  /\ Forall (fun e => isNetworkWrite e = false)
       (emitted (onSubmit (world None None None None) validValues
                   (with_file (JFile smallJpeg) freshView))).
Proof.
  apply (unauthenticated_aborts_before_any_write (world None None None None) validValues
           (with_file (JFile smallJpeg) freshView)).
  simpl. auto.
Defined.

(** C3. If the storage upload of a submission fails, no database insert is
    attempted in that run, and the only notification is the generic error
    one; the body of that upload is the attached file. The same holds from
    the environment's side: with a value attached and a storage service
    that refuses every upload of it, no run contains an insert. *)
Theorem failed_upload_prevents_insert (env : Env) (values : Values.t) (s : State) :
  (forall bucket key body err,
     In (EUpload bucket key body (Some err)) (emitted (onSubmit env values s)) ->
     Forall (fun e => isInsert e = false) (emitted (onSubmit env values s))
     /\ toasts (emitted (onSubmit env values s)) = [errorToast]
     /\ body = file s /\ file s <> JNull)
  /\ (file s <> JNull ->
      (forall key, storage_upload env "card_photos" key (file s) <> None) ->
      Forall (fun e => isInsert e = false) (emitted (onSubmit env values s))).
Proof.
  split.
  - all_runs env s values; intros bucket key body err H; tidy;
      repeat split; solve [reflexivity | repeat constructor | discriminate | congruence].
  - all_runs env s values; intros Hf Hup; tidy;
      try solve [repeat constructor];
      exfalso; eapply Hup; eassumption.
Qed.

Lemma failed_upload_prevents_insert_witness :
  Forall (fun e => isInsert e = false)
    (emitted (onSubmit (world (Some alice) (Some (StorageError "quota")) None None)
                validValues (with_file (JFile smallJpeg) freshView))).
Proof.
  apply (proj2 (failed_upload_prevents_insert
                  (world (Some alice) (Some (StorageError "quota")) None None)
                  validValues (with_file (JFile smallJpeg) freshView))).
  - discriminate.
  - discriminate.
Defined.

(** A submission with nothing attached, an identified user and an insert
    that the database accepts. *)
Lemma onSubmit_success_no_file (env : Env) (values : Values.t) (s : State) (u : User) :
  file s = JNull ->
  In (EGetUser (Some u)) (emitted (onSubmit env values s)) ->
  (exists table rows, In (EInsert table rows None) (emitted (onSubmit env values s))) ->
  toasts (emitted (onSubmit env values s)) = [successToast]
  /\ inserted (emitted (onSubmit env values s))
     = [Card.mk (id u) (Values.cardNumber values) (Values.location values)
          (Values.foundDate values) (or_null (Values.description values)) None
          (Values.documentType values)]
  /\ (In (ENavigate "/") (emitted (onSubmit env values s))
      <-> mounted (final (onSubmit env values s)) = true).
Proof.
  destruct u as [uid'].
  all_runs env s values; intros Hf Hu Hi; tidy;
    (split; [reflexivity | split; [congruence |]]);
    split; intros Hnav; tidy; auto 10.
Qed.

(** C4, as the code has it. For a form that passes the schema, with no
    file attached, when the identity lookup finds a user and the insert
    succeeds: the notification "Signalement envoyé" is shown (and no other),
    the one inserted record has no photo URL, and the page navigates to the
    home route exactly when the view is still mounted once the insert has
    completed. *)
Theorem valid_submission_without_file (env : Env) (s : State) (u : User) :
  formSchema (formValues s) = [] ->
  file s = JNull ->
  In (EGetUser (Some u)) (emitted (submitForm env s)) ->
  (exists table rows, In (EInsert table rows None) (emitted (submitForm env s))) ->
  toasts (emitted (submitForm env s)) = [successToast]
  /\ Toast.title successToast = "Signalement envoyé"
  /\ (exists row, inserted (emitted (submitForm env s)) = [row]
                  /\ Card.photo_url row = None)
  /\ (In (ENavigate "/") (emitted (submitForm env s))
      <-> mounted (final (submitForm env s)) = true).
Proof.
  intros Hv Hf. unfold submitForm. rewrite handleSubmit_valid by exact Hv.
  intros Hu Hi.
  destruct (onSubmit_success_no_file env (formValues s) (with_formErrors [] s) u)
    as (Ht & Hrow & Hnav); try assumption.
  repeat split; try assumption; try apply Hnav.
  eexists. split; [exact Hrow | reflexivity].
Qed.

Lemma valid_submission_without_file_witness :
  toasts (emitted (submitForm (world (Some alice) None None None) freshView))
  = [successToast]
  /\ In (ENavigate "/") (emitted (submitForm (world (Some alice) None None None) freshView)).
Proof.
  destruct (valid_submission_without_file (world (Some alice) None None None)
              freshView alice) as (Ht & _ & _ & Hnav).
  - reflexivity.
  - reflexivity.
  - simpl. auto.
  - exists "reported_cards". eexists. simpl. right. right. left. reflexivity.
  - split; [exact Ht | apply Hnav; reflexivity].
Defined.

(** C4, as stated, fails: if the user leaves the page while the insert is in
    flight, the form was valid, nothing was attached, the user was
    identified and the insert succeeded, the notification is shown, but no
    navigation takes place. *)
Lemma no_navigation_once_torn_down :
  formSchema (formValues freshView) = []
  /\ file freshView = JNull
  /\ In (EGetUser (Some alice))
       (emitted (submitForm (world (Some alice) None None (Some AwaitInsert)) freshView))
  /\ (exists table rows,
        In (EInsert table rows None)
          (emitted (submitForm (world (Some alice) None None (Some AwaitInsert)) freshView)))
  /\ In (EToast successToast)
       (emitted (submitForm (world (Some alice) None None (Some AwaitInsert)) freshView))
  /\ ~ In (ENavigate "/")
         (emitted (submitForm (world (Some alice) None None (Some AwaitInsert)) freshView)).
Proof.
  repeat split.
  - simpl. auto.
  - exists "reported_cards". eexists. simpl. right. right. left. reflexivity.
  - simpl. auto 10.
  - simpl. intuition discriminate.
Qed.

(** C5, as the code has it. A submission in which a backend call failed (no
    user, upload error, insert error) shows exactly one notification, an
    error one, and leaves the attached file as it was. If the view is still
    mounted when the run ends, the field values are unchanged as well and
    the in-flight flag is cleared: the state is the initial one with the
    flag off. If the view was torn down meanwhile, the flag is left set. *)
Theorem failed_submission_keeps_form (env : Env) (values : Values.t) (s : State) :
  existsb isFailure (emitted (onSubmit env values s)) = true ->
  (exists t, toasts (emitted (onSubmit env values s)) = [t]
             /\ Toast.variant t = Destructive)
  /\ file (final (onSubmit env values s)) = file s
  /\ (mounted (final (onSubmit env values s)) = true ->
      formValues (final (onSubmit env values s)) = formValues s
      /\ isSubmitting (final (onSubmit env values s)) = false
      /\ final (onSubmit env values s) = with_isSubmitting false s)
  /\ (mounted (final (onSubmit env values s)) = false ->
      isSubmitting (final (onSubmit env values s)) = true).
Proof.
  all_runs env s values; intros H; tidy;
    (split; [eexists; split; reflexivity |]);
    (split; [reflexivity |]);
    split; intros Hm; tidy; auto.
Qed.

Lemma failed_submission_keeps_form_witness :
  final (onSubmit (world (Some alice) None (Some (PostgrestError "denied")) None)
           validValues (with_file (JFile smallJpeg) freshView))
  = with_isSubmitting false (with_file (JFile smallJpeg) freshView).
Proof.
  destruct (failed_submission_keeps_form
              (world (Some alice) None (Some (PostgrestError "denied")) None)
              validValues (with_file (JFile smallJpeg) freshView))
    as (_ & _ & Hlive & _).
  - reflexivity.
  - apply Hlive. reflexivity.
Defined.

(** C5, as stated, fails: when the user leaves the page while the identity
    lookup is in flight and nobody is signed in, the run ends in the
    Unauthenticated error, yet afterwards the in-flight flag is still set
    and the field values are no longer those of before the submission. *)
Lemma flag_stays_set_once_torn_down :
  existsb isFailure
    (emitted (onSubmit (world None None None (Some AwaitGetUser)) validValues freshView))
  = true
  /\ isSubmitting
       (final (onSubmit (world None None None (Some AwaitGetUser)) validValues freshView))
     = true
  /\ formValues
       (final (onSubmit (world None None None (Some AwaitGetUser)) validValues freshView))
     <> formValues freshView.
Proof.
  repeat split. discriminate.
Qed.

(** Where the wrapped value leads: a submission made with the event object
    attached fails on [file.name.split] before anything is uploaded. *)
Lemma wrapped_file_breaks_submission (env : Env) (values : Values.t) (s : State)
    (files : list File.t) (u : User) :
  mounted s = true ->
  file s = JEvent files ->
  auth_getUser env = Some u ->
  Forall (fun e => isNetworkWrite e = false) (emitted (onSubmit env values s))
  /\ toasts (emitted (onSubmit env values s)) = [errorToast].
Proof.
  all_runs env s values; intros Hm Hf Hu; tidy; split;
    solve [reflexivity | repeat constructor].
Qed.

(** ** Teardown of the view *)

Lemma teardownRespected_sound (l : list Effect) :
  teardownRespected l = true ->
  forall before after,
    l = (before ++ EUnmount :: after)%list ->
    Forall (fun e => mutatesView e = false) after.
Proof.
  induction l as [| e r IH]; intros H before after E.
  - destruct before; discriminate E.
  - destruct before as [| b before']; cbn in E; injection E as E1 E2.
    + subst e r. cbn in H. apply andb_true_iff in H. destruct H as [H _].
      rewrite forallb_forall in H. apply Forall_forall. intros x Hx.
      apply H in Hx. now destruct (mutatesView x).
    + apply (IH) with (before := before'); [| exact E2].
      destruct e; cbn in H; try exact H.
      apply andb_true_iff in H. now destruct H.
Qed.

Lemma onSubmit_teardownRespected (env : Env) (values : Values.t) (s : State) :
  teardownRespected (emitted (onSubmit env values s)) = true.
Proof.
  all_runs env s values; reflexivity.
Qed.

Lemma onSubmit_unmounted (env : Env) (values : Values.t) (s : State) :
  mounted s = false -> onSubmit env values s = mkOutcome (Normal tt) s [].
Proof.
  intros Hm. destruct s as [sub att m vals errs drag]. cbn in Hm. subst m. reflexivity.
Qed.

Lemma onSubmit_state_after_teardown (env : Env) (values : Values.t) (s : State) :
  In EUnmount (emitted (onSubmit env values s)) ->
  mounted (final (onSubmit env values s)) = false
  /\ isSubmitting (final (onSubmit env values s)) = true
  /\ file (final (onSubmit env values s)) = file s.
Proof.
  all_runs env s values; intros H; tidy; repeat split.
Qed.

(** C9. In every run of the submission handler, whenever the view is torn
    down, nothing that follows in the trace sets the in-flight flag, sets
    the attached file or navigates; the discarded view keeps the in-flight
    flag and the attached file it had at teardown. A handler that starts on
    a view already torn down does nothing at all, and so does the
    file-change handler. *)
Theorem teardown_stops_view_updates (env : Env) (values : Values.t) (s : State) :
  (forall before after,
     emitted (onSubmit env values s) = (before ++ EUnmount :: after)%list ->
     Forall (fun e => mutatesView e = false) after
     /\ isSubmitting (final (onSubmit env values s)) = true
     /\ file (final (onSubmit env values s)) = file s)
  /\ (mounted s = false ->
      onSubmit env values s = mkOutcome (Normal tt) s []
      /\ forall newFile, handleFileChange newFile s = mkOutcome (Normal tt) s []).
Proof.
  split.
  - intros before after E. split.
    + eapply teardownRespected_sound; [apply onSubmit_teardownRespected | exact E].
    + apply onSubmit_state_after_teardown. rewrite E. apply in_elt.
  - intros Hm. split.
    + now apply onSubmit_unmounted.
    + intros newFile. now apply handleFileChange_unmounted.
Qed.

Lemma teardown_stops_view_updates_witness :
  Forall (fun e => mutatesView e = false)
    [EToast successToast]
  /\ handleFileChange (JFile smallJpeg) (with_mounted false freshView)
     = mkOutcome (Normal tt) (with_mounted false freshView) [].
Proof.
  pose proof (teardown_stops_view_updates
                (world (Some alice) None None (Some AwaitInsert)) validValues freshView)
    as [Hrun _].
  pose proof (teardown_stops_view_updates
                (world (Some alice) None None None) validValues
                (with_mounted false freshView))
    as [_ Hdead].
  split.
  - apply (Hrun [ESetIsSubmitting true; EGetUser (Some alice);
                 EInsert "reported_cards"
                   [Card.mk "user-1" "123456" "Dakar" "2024-05-01" None None "id"] None]
             [EToast successToast]).
    reflexivity.
  - apply Hdead. reflexivity.
Defined.

(** ** The inserted record *)

Lemma or_null_spec (v : option string) :
  (v = None \/ v = Some "" -> or_null v = None)
  /\ (forall d, v = Some d -> d <> "" -> or_null v = Some d).
Proof.
  split.
  - intros [H | H]; subst v; reflexivity.
  - intros d H Hne. subst v. destruct d; [now elim Hne | reflexivity].
Qed.

(** On a mounted view, with a signed-in user and either nothing attached
    or an attached [File] whose upload storage accepts, the handler reaches
    the insert: exactly one row is sent. *)
Lemma onSubmit_inserts (env : Env) (values : Values.t) (s : State) (u : User) :
  mounted s = true ->
  auth_getUser env = Some u ->
  file s = JNull
  \/ (exists f, file s = JFile f
                /\ forall key, storage_upload env "card_photos" key (JFile f) = None) ->
  exists photo,
    inserted (emitted (onSubmit env values s))
    = [Card.mk (id u) (Values.cardNumber values) (Values.location values)
         (Values.foundDate values) (or_null (Values.description values)) photo
         (Values.documentType values)].
Proof.
  destruct u as [uid'].
  all_runs env s values; intros Hm Hu Hf; tidy; open_eqs;
    first [eexists; reflexivity | refused_nothing].
Qed.

(** C10. A submission on a mounted view, with a signed-in user, nothing
    attached or a [File] whose upload succeeds, and a database that accepts
    the insert, shows the success notification and inserts exactly one
    record; its description is null when the form's description is absent or
    the empty string, and is the form's description verbatim when that is a
    non-empty string. More generally every record that any run inserts has
    its description normalised in this way. *)
Theorem empty_description_is_null (env : Env) (values : Values.t) (s : State) :
  (forall u,
     mounted s = true ->
     auth_getUser env = Some u ->
     file s = JNull
     \/ (exists f, file s = JFile f
                   /\ forall key, storage_upload env "card_photos" key (JFile f) = None) ->
     (forall rows, db_insert env "reported_cards" rows = None) ->
     In (EToast successToast) (emitted (onSubmit env values s))
     /\ exists row,
          inserted (emitted (onSubmit env values s)) = [row]
          /\ (Values.description values = None \/ Values.description values = Some "" ->
              Card.description row = None)
          /\ (forall d, Values.description values = Some d -> d <> "" ->
              Card.description row = Some d))
  /\ (forall row,
        In row (inserted (emitted (onSubmit env values s))) ->
        (Values.description values = None \/ Values.description values = Some "" ->
         Card.description row = None)
        /\ (forall d, Values.description values = Some d -> d <> "" ->
            Card.description row = Some d))
  /\ (In (EToast successToast) (emitted (onSubmit env values s)) ->
      exists row, inserted (emitted (onSubmit env values s)) = [row]).
Proof.
  split; [| split].
  - intros u Hm Hu Hf Hins. split.
    + revert Hm Hu Hf Hins. destruct u as [uid'].
      all_runs env s values; intros Hm Hu Hf Hins; tidy; open_eqs;
        first [refused_nothing | cbn; auto 8].
    + destruct (onSubmit_inserts env values s u Hm Hu Hf) as [photo Hrow].
      eexists. split; [exact Hrow |]. apply or_null_spec.
  - all_runs env s values; intros row H; tidy; subst row; apply or_null_spec.
  - all_runs env s values; intros H; tidy; eexists; reflexivity.
Qed.

Lemma empty_description_is_null_witness :
  (In (EToast successToast)
     (emitted (onSubmit (world (Some alice) None None None) validValues freshView))
   /\ exists row,
        inserted (emitted (onSubmit (world (Some alice) None None None) validValues
                             freshView))
        = [row]
        /\ Card.description row = None)
  /\ (exists row,
        inserted (emitted (onSubmit (world (Some alice) None None None)
                             (Values.mk "passport" "778899" "Thies" "2024-06-12"
                                (Some "trouvee pres du marche"))
                             (with_file (JFile smallJpeg) freshView)))
        = [row]
        /\ Card.description row = Some "trouvee pres du marche").
Proof.
  split.
  - destruct (proj1 (empty_description_is_null (world (Some alice) None None None)
                       validValues freshView) alice)
      as (Ht & row & Hrow & Hnull & _).
    + reflexivity.
    + reflexivity.
    + left. reflexivity.
    + reflexivity.
    + split; [exact Ht |]. exists row. split; [exact Hrow |].
      apply Hnull. right. reflexivity.
  - destruct (proj1 (empty_description_is_null (world (Some alice) None None None)
                       (Values.mk "passport" "778899" "Thies" "2024-06-12"
                          (Some "trouvee pres du marche"))
                       (with_file (JFile smallJpeg) freshView)) alice)
      as (_ & row & Hrow & _ & Hverb).
    + reflexivity.
    + reflexivity.
    + right. exists smallJpeg. split; reflexivity.
    + reflexivity.
    + exists row. split; [exact Hrow |].
      apply (Hverb "trouvee pres du marche"); [reflexivity | discriminate].
Defined.

(** ** Two complete runs *)

(** A valid form with a 2 MiB JPEG attached as a [File], a signed-in user,
    and a backend that accepts everything: the photo is uploaded under the
    randomised key that keeps the extension, and the inserted record
    carries the public URL resolved for that key. *)
Example submission_with_photo :
  emitted (submitForm (world (Some alice) None None None)
             (with_file (JFile smallJpeg) freshView))
  = [ESetIsSubmitting true;
     EGetUser (Some alice);
     EUpload "card_photos" "0.42.jpg" (JFile smallJpeg) None;
     EGetPublicUrl "card_photos" "0.42.jpg" "https://cdn.example/card_photos/0.42.jpg";
     EInsert "reported_cards"
       [Card.mk "user-1" "123456" "Dakar" "2024-05-01" None
          (Some "https://cdn.example/card_photos/0.42.jpg") "id"]
       None;
     EToast successToast;
     ENavigate "/";
     ESetIsSubmitting false].
Proof. reflexivity. Qed.

(** ** The photo widget under sequences of events *)

Lemma acceptable_tests (f : File.t) :
  acceptable f
  <-> includes allowedTypes (File.type f) = true /\ (maxSize <? File.size f)%N = false.
Proof.
  unfold acceptable. rewrite includes_In, N.ltb_ge, maxSize_value. reflexivity.
Qed.

(** The four ways the validation path can go when the owner is the page. *)
Lemma validate_page_cases (f : File.t) (s : State) :
  (~ acceptable f
   /\ exists r, validateAndHandleFile handleFileChange f s
                = mkOutcome (Normal tt) s [EToast (rejectionToast r)])
  \/ (acceptable f /\ mounted s = true
      /\ validateAndHandleFile handleFileChange f s
         = mkOutcome (Normal tt) (with_file (JEvent [f]) s) [ESetFile (JEvent [f])])
  \/ (acceptable f /\ mounted s = false
      /\ validateAndHandleFile handleFileChange f s = mkOutcome (Normal tt) s []).
Proof.
  destruct (includes allowedTypes (File.type f)) eqn:Ht;
    [destruct (maxSize <? File.size f)%N eqn:Hs |].
  - left. split.
    + intros H. apply acceptable_tests in H. destruct H; congruence.
    + exists TooLarge. now apply rejected_size_run.
  - assert (Ha : acceptable f) by (apply acceptable_tests; now split).
    right. destruct (mounted s) eqn:Hm; [left | right];
      (split; [exact Ha |]); (split; [reflexivity |]);
      rewrite accepted_run by assumption; unfold function_.
    + now rewrite handleFileChange_mounted.
    + now rewrite handleFileChange_unmounted.
  - left. split.
    + intros H. apply acceptable_tests in H. destruct H; congruence.
    + exists UnsupportedType. now apply rejected_type_run.
Qed.

Lemma handleDrop_nil (cb : JsVal -> Js unit) (s : State) :
  handleDrop cb [] s
  = mkOutcome (Normal tt) (with_isDragging false s) [EPreventDefault; ESetIsDragging false].
Proof. reflexivity. Qed.

Lemma handleFileInputChange_nothing (cb : JsVal -> Js unit) (s : State) :
  handleFileInputChange cb None s = mkOutcome (Normal tt) s []
  /\ handleFileInputChange cb (Some []) s = mkOutcome (Normal tt) s [].
Proof. split; reflexivity. Qed.

(** What one event does to a page-wired widget: the state it leaves and the
    trace it emits, by cases on the candidate file. *)
Lemma dispatch_page_cases (ev : WidgetEvent) (s : State) :
  exists s1 l, dispatch handleFileChange ev s = mkOutcome (Normal tt) s1 l
    /\ isSubmitting s1 = isSubmitting s /\ mounted s1 = mounted s
    /\ formValues s1 = formValues s /\ formErrors s1 = formErrors s
    /\ isDragging s1 = match ev with
                       | DragOver => true
                       | DragLeave | Drop _ => false
                       | Pick _ => isDragging s
                       end
    /\ Forall (fun e => isBackendCall e = false /\ mutatesView e = setsFile e) l
    /\ ((file s1 = file s /\ Forall (fun e => setsFile e = false) l
         /\ (forall f, candidate ev = Some f -> acceptable f -> mounted s = false))
        \/ (exists f, candidate ev = Some f /\ acceptable f /\ mounted s = true
                      /\ file s1 = JEvent [f]
                      /\ filter setsFile l = [ESetFile (JEvent [f])])).
Proof.
  destruct ev as [| | [| f rest] | [[| f rest] |]]; cbn [dispatch candidate].
  1-3, 5, 7:
    eexists; eexists; (split; [reflexivity |]); cbn;
    repeat (split; [reflexivity |]);
    (split; [repeat constructor |]);
    left; (split; [reflexivity |]); (split; [repeat constructor |]);
    discriminate.
  - rewrite handleDrop_run.
    destruct (validate_page_cases f (with_isDragging false s))
      as [[Hn [r E]] | [[Ha [Hm E]] | [Ha [Hm E]]]]; rewrite E;
      eexists; eexists; (split; [reflexivity |]); cbn in *;
      repeat (split; [reflexivity |]);
      (split; [repeat constructor |]).
    + left. split; [reflexivity |]. split; [repeat constructor |].
      intros g Hg Hag. injection Hg as <-. contradiction.
    + right. exists f. repeat (split; [first [reflexivity | assumption] |]).
      reflexivity.
    + left. split; [reflexivity |]. split; [repeat constructor |].
      intros g _ _. exact Hm.
  - rewrite handleFileInputChange_run.
    destruct (validate_page_cases f s)
      as [[Hn [r E]] | [[Ha [Hm E]] | [Ha [Hm E]]]]; rewrite E;
      eexists; eexists; (split; [reflexivity |]); cbn in *;
      repeat (split; [reflexivity |]);
      (split; [repeat constructor |]).
    + left. split; [reflexivity |]. split; [repeat constructor |].
      intros g Hg Hag. injection Hg as <-. contradiction.
    + right. exists f. repeat (split; [first [reflexivity | assumption] |]).
      reflexivity.
    + left. split; [reflexivity |]. split; [repeat constructor |].
      intros g _ _. exact Hm.
Qed.

Lemma dispatchAll_app (cb : JsVal -> Js unit) (a b : list WidgetEvent) (s : State) :
  dispatchAll cb (a ++ b) s
  = (fst (dispatchAll cb b (fst (dispatchAll cb a s))),
     (snd (dispatchAll cb a s) ++ snd (dispatchAll cb b (fst (dispatchAll cb a s))))%list).
Proof.
  revert s. induction a as [| ev a IH]; intros s; cbn [dispatchAll app fst snd].
  - now destruct (dispatchAll cb b s).
  - rewrite IH. cbn [fst snd]. now rewrite app_assoc.
Qed.

Lemma dispatchAll_page_frame (evs : list WidgetEvent) (s : State) :
  isSubmitting (fst (dispatchAll handleFileChange evs s)) = isSubmitting s
  /\ mounted (fst (dispatchAll handleFileChange evs s)) = mounted s
  /\ formValues (fst (dispatchAll handleFileChange evs s)) = formValues s
  /\ formErrors (fst (dispatchAll handleFileChange evs s)) = formErrors s.
Proof.
  revert s. induction evs as [| ev evs IH]; intros s; cbn [dispatchAll fst].
  - repeat split.
  - destruct (dispatch_page_cases ev s) as (s1 & l & E & H1 & H2 & H3 & H4 & _).
    rewrite E. cbn [final]. destruct (IH s1) as (I1 & I2 & I3 & I4).
    repeat split; congruence.
Qed.

(** X1. Of the files offered by one drop or one pick only the first is
    looked at: the rest of the list changes nothing, whatever the owner. *)
Theorem only_first_file_is_considered
    (onFileChange : JsVal -> Js unit) (f : File.t) (rest : list File.t) (s : State) :
  handleDrop onFileChange (f :: rest) s = handleDrop onFileChange [f] s
  /\ handleFileInputChange onFileChange (Some (f :: rest)) s
     = handleFileInputChange onFileChange (Some [f]) s.
Proof.
  split.
  - now rewrite !handleDrop_run.
  - now rewrite !handleFileInputChange_run.
Qed.

(** X2. A drop that carries no file only prevents the browser default and
    clears the drag highlight; a pick whose file list is missing or empty
    does nothing. In neither case is the owner called or a notification
    raised, and the state is otherwise untouched. *)
Theorem empty_selection_is_ignored (onFileChange : JsVal -> Js unit) (s : State) :
  handleDrop onFileChange [] s
  = mkOutcome (Normal tt) (with_isDragging false s) [EPreventDefault; ESetIsDragging false]
  /\ handleFileInputChange onFileChange None s = mkOutcome (Normal tt) s []
  /\ handleFileInputChange onFileChange (Some []) s = mkOutcome (Normal tt) s [].
Proof.
  split; [apply handleDrop_nil | apply handleFileInputChange_nothing].
Qed.

(** X3. Whatever sequence of drag, drop and pick events the widget receives
    on the page, it makes no backend call; it never touches the in-flight
    flag, the mounted flag, the field values or the form errors; and every
    value it hands to [setFile] is the event wrapping the first file of one
    of the drops or picks, that file being of an allowed type and at most
    5,242,880 bytes. *)
Theorem widget_only_attaches_acceptable_files (evs : list WidgetEvent) (s : State) :
  Forall (fun e => isBackendCall e = false) (snd (dispatchAll handleFileChange evs s))
  /\ (isSubmitting (fst (dispatchAll handleFileChange evs s)) = isSubmitting s
      /\ mounted (fst (dispatchAll handleFileChange evs s)) = mounted s
      /\ formValues (fst (dispatchAll handleFileChange evs s)) = formValues s
      /\ formErrors (fst (dispatchAll handleFileChange evs s)) = formErrors s)
  /\ (forall v, In (ESetFile v) (snd (dispatchAll handleFileChange evs s)) ->
        exists ev f, In ev evs /\ candidate ev = Some f /\ acceptable f
                     /\ v = JEvent [f]).
Proof.
  split; [| split; [apply dispatchAll_page_frame |]]; revert s;
    induction evs as [| ev evs IH]; intros s; cbn [dispatchAll fst snd].
  - constructor.
  - destruct (dispatch_page_cases ev s) as (s1 & l & E & _ & _ & _ & _ & _ & Hl & _).
    rewrite E. cbn [final emitted]. apply Forall_app. split; [| apply IH].
    eapply Forall_impl; [| exact Hl]. now intros e [He _].
  - intros v [].
  - destruct (dispatch_page_cases ev s) as (s1 & l & E & _ & _ & _ & _ & _ & _ & Hf).
    rewrite E. cbn [final emitted]. intros v Hv. apply in_app_or in Hv.
    destruct Hv as [Hv | Hv].
    + destruct Hf as [(_ & Hno & _) | (f & Hc & Ha & _ & _ & Hfilter)].
      * rewrite Forall_forall in Hno. apply Hno in Hv. discriminate Hv.
      * assert (Hin : In (ESetFile v) (filter setsFile l))
          by (apply filter_In; now split).
        rewrite Hfilter in Hin. destruct Hin as [Hin | []]. injection Hin as <-.
        exists ev, f. repeat split; try assumption; try apply Ha. now left.
    + destruct (IH s1 v Hv) as (ev' & f & Hin & Hc & Ha & Hv').
      exists ev', f. repeat split; try assumption; try apply Ha. now right.
Qed.

(** X4. After any sequence of widget events, a last event that puts
    forward no file, or a file that is not acceptable, leaves the attached
    value exactly as the earlier events left it, whatever it was. *)
Theorem rejected_last_event_keeps_attachment
    (evs : list WidgetEvent) (ev : WidgetEvent) (s : State) :
  (forall f, candidate ev = Some f -> ~ acceptable f) ->
  file (fst (dispatchAll handleFileChange (evs ++ [ev]) s))
  = file (fst (dispatchAll handleFileChange evs s))
  /\ Forall (fun e => setsFile e = false)
       (emitted (dispatch handleFileChange ev (fst (dispatchAll handleFileChange evs s)))).
Proof.
  intros Hrej. rewrite dispatchAll_app. cbn [fst dispatchAll].
  destruct (dispatch_page_cases ev (fst (dispatchAll handleFileChange evs s)))
    as (s1 & l & E & _ & _ & _ & _ & _ & _ & Hf).
  rewrite E. cbn [final emitted].
  destruct Hf as [(Hsame & Hno & _) | (g & Hg & Ha & _)].
  - split; assumption.
  - elim (Hrej g Hg Ha).
Qed.

Lemma rejected_last_event_keeps_attachment_witness :
  file (fst (dispatchAll handleFileChange
               ([DragOver; Drop []; Pick (Some [gifFile])] ++ [Drop [hugePng; smallJpeg]])
               (with_file (JFile smallJpeg) freshView)))
  = file (fst (dispatchAll handleFileChange
                 [DragOver; Drop []; Pick (Some [gifFile])]
                 (with_file (JFile smallJpeg) freshView))).
Proof.
  apply (rejected_last_event_keeps_attachment
           [DragOver; Drop []; Pick (Some [gifFile])] (Drop [hugePng; smallJpeg])
           (with_file (JFile smallJpeg) freshView)).
  intros f Hc [_ Hsize]. cbn in Hc. injection Hc as <-. now apply Hsize.
Defined.

(** X5. After any sequence of widget events the drag highlight is on exactly
    when the last drag-related event was a drag-over: a drag-leave or a drop
    turns it off, a pick through the file dialog leaves it as it was. *)
Theorem drag_highlight_follows_last_event
    (evs : list WidgetEvent) (ev : WidgetEvent) (s : State) :
  isDragging (fst (dispatchAll handleFileChange (evs ++ [ev]) s))
  = match ev with
    | DragOver => true
    | DragLeave | Drop _ => false
    | Pick _ => isDragging (fst (dispatchAll handleFileChange evs s))
    end.
Proof.
  rewrite dispatchAll_app. cbn [fst dispatchAll].
  destruct (dispatch_page_cases ev (fst (dispatchAll handleFileChange evs s)))
    as (s1 & l & E & _ & _ & _ & _ & Hd & _).
  rewrite E. exact Hd.
Qed.

(** ** The schema, field by field *)

Lemma z_min_1_nil (msg field value : string) :
  z_min 1 msg field value = [] <-> value <> "".
Proof.
  destruct value; cbn; split; intros H; try reflexivity; try discriminate.
  now elim H.
Qed.

Lemma z_regex_nil (re : string -> bool) (msg field value : string) :
  z_regex re msg field value = [] <-> re value = true.
Proof.
  unfold z_regex. destruct (re value); split; intros H; try reflexivity; discriminate.
Qed.

Lemma app_nil_iff {A} (l l' : list A) : (l ++ l')%list = [] <-> l = [] /\ l' = [].
Proof.
  split; [apply app_eq_nil | intros [-> ->]; reflexivity].
Qed.

(** X6. The schema raises no issue exactly when the document type, the
    location and the found date are non-empty and the card number is a
    non-empty string of digits; the description plays no part. *)
Theorem schema_accepts_exactly_complete_forms (v : Values.t) :
  formSchema v = []
  <-> Values.documentType v <> ""
      /\ (Values.cardNumber v <> ""
          /\ Forall (fun c => In c digitChars) (list_ascii_of_string (Values.cardNumber v)))
      /\ Values.location v <> ""
      /\ Values.foundDate v <> "".
Proof.
  unfold formSchema.
  rewrite !app_nil_iff, !z_min_1_nil, z_regex_nil, digits_regex_spec.
  tauto.
Qed.

(** X7. On the card number an empty value raises both messages, "required"
    first and "digits only" second; a non-empty value with a character that
    is not a digit raises the "digits only" message alone; a non-empty
    string of digits raises none. The description never raises an issue. *)
Theorem cardNumber_issues (v : Values.t) :
  (Values.cardNumber v = "" ->
   issuesOn "cardNumber" v
   = [mkIssue "cardNumber" cardNumberRequired; mkIssue "cardNumber" cardNumberDigits])
  /\ (Values.cardNumber v <> "" ->
      (exists c, In c (list_ascii_of_string (Values.cardNumber v)) /\ ~ In c digitChars) ->
      issuesOn "cardNumber" v = [mkIssue "cardNumber" cardNumberDigits])
  /\ (Values.cardNumber v <> "" ->
      Forall (fun c => In c digitChars) (list_ascii_of_string (Values.cardNumber v)) ->
      issuesOn "cardNumber" v = [])
  /\ issuesOn "description" v = [].
Proof.
  assert (Hother : forall n msg field value target,
            String.eqb field target = false ->
            filter (fun i => String.eqb (path i) target) (z_min n msg field value) = []).
  { intros n msg field value target H. unfold z_min.
    destruct (n <=? String.length value)%nat; cbn; [reflexivity | now rewrite H]. }
  unfold issuesOn, formSchema. rewrite !filter_app.
  rewrite !(Hother _ _ "documentType"), !(Hother _ _ "location"),
    !(Hother _ _ "foundDate"), (Hother _ _ "cardNumber" _ "description")
    by reflexivity.
  cbn [app]. rewrite !app_nil_r. repeat split.
  - intros E. rewrite E. reflexivity.
  - intros Hne Hbad.
    assert (Hr : digits_regex (Values.cardNumber v) = false)
      by (apply digits_regex_rejects; now right).
    unfold z_regex. rewrite Hr. destruct (Values.cardNumber v); [now elim Hne |].
    reflexivity.
  - intros Hne Hall.
    assert (Hr : digits_regex (Values.cardNumber v) = true)
      by (apply digits_regex_spec; now split).
    unfold z_regex. rewrite Hr. destruct (Values.cardNumber v); [now elim Hne |].
    reflexivity.
  - unfold z_regex. destruct (digits_regex (Values.cardNumber v)); reflexivity.
Qed.

Lemma cardNumber_issues_witness :
  issuesOn "cardNumber" defaultValues
  = [mkIssue "cardNumber" cardNumberRequired; mkIssue "cardNumber" cardNumberDigits]
  /\ issuesOn "cardNumber" (Values.mk "id" "12 34" "Dakar" "2024-05-01" None)
     = [mkIssue "cardNumber" cardNumberDigits]
  /\ issuesOn "cardNumber" validValues = [].
Proof.
  split; [| split].
  - apply (proj1 (cardNumber_issues defaultValues)). reflexivity.
  - apply (proj1 (proj2 (cardNumber_issues
                           (Values.mk "id" "12 34" "Dakar" "2024-05-01" None)))).
    + discriminate.
    + exists " "%char. split; [simpl; auto | cbv; intuition discriminate].
  - apply (proj1 (proj2 (proj2 (cardNumber_issues validValues)))).
    + discriminate.
    + cbn. repeat (apply Forall_cons; [cbv; auto 12 |]). apply Forall_nil.
Defined.

(** ** The storage key *)

Lemma split_nonempty (sep : ascii) (s : string) : split sep s <> [].
Proof.
  destruct s as [| c r]; cbn; [discriminate |].
  destruct (Ascii.eqb c sep); [discriminate |].
  destruct (split sep r); discriminate.
Qed.

(** Splitting around a separator splits both sides. *)
Lemma split_app_sep (sep : ascii) (a b : string) :
  split sep (a ++ String sep b) = (split sep a ++ split sep b)%list.
Proof.
  induction a as [| c a IH]; cbn.
  - now rewrite Ascii.eqb_refl.
  - destruct (Ascii.eqb c sep); rewrite IH; [reflexivity |].
    pose proof (split_nonempty sep a) as Hne.
    destruct (split sep a) as [| h t]; [now elim Hne | reflexivity].
Qed.

Lemma split_no_sep (sep : ascii) (s : string) :
  ~ In sep (list_ascii_of_string s) -> split sep s = [s].
Proof.
  induction s as [| c r IH]; cbn; intros H; [reflexivity |].
  destruct (Ascii.eqb_spec c sep) as [E | E]; [elim H; now left |].
  rewrite IH; [reflexivity | intros Hin; apply H; now right].
Qed.

Lemma pop_app (l1 l2 : list string) : l2 <> [] -> pop (l1 ++ l2) = pop l2.
Proof.
  intros H. unfold pop. rewrite map_app.
  induction l1 as [| x l1 IH]; cbn [map app]; [reflexivity |].
  cbn [last]. destruct (map Some l1 ++ map Some l2)%list eqn:E; [| exact IH].
  apply app_eq_nil in E. destruct E as [_ E]. destruct l2; [now elim H | discriminate E].
Qed.

(** [name.split('.').pop()] is the part of the name after its last dot, and
    the whole name when it has no dot; it is never [undefined]. *)
Lemma extension_after_last_dot (base ext : string) :
  ~ In "."%char (list_ascii_of_string ext) ->
  pop (split "." (base ++ "." ++ ext)) = Some ext.
Proof.
  intros H. change (base ++ "." ++ ext) with (base ++ String "." ext).
  rewrite split_app_sep, pop_app by apply split_nonempty.
  now rewrite split_no_sep.
Qed.

Lemma extension_without_dot (name : string) :
  ~ In "."%char (list_ascii_of_string name) -> pop (split "." name) = Some name.
Proof. intros H. now rewrite split_no_sep. Qed.

Lemma extension_defined (name : string) : pop (split "." name) <> None.
Proof.
  unfold pop. pose proof (split_nonempty "." name) as Hne.
  destruct (split "." name) as [| h t]; [now elim Hne |]. clear Hne.
  revert h. induction t as [| x t IH]; intros h; cbn; [discriminate | apply IH].
Qed.

(** ** Runs of the submission handler, call by call *)

Lemma onSubmit_upload_shape (env : Env) (values : Values.t) (s : State)
    (bucket key : string) (body : JsVal) (answer : option Error) :
  In (EUpload bucket key body answer) (emitted (onSubmit env values s)) ->
  bucket = "card_photos" /\ body = file s
  /\ answer = storage_upload env bucket key body
  /\ exists f, file s = JFile f
               /\ key = math_random env ++ "." ++ interpolate (pop (split "." (File.name f))).
Proof.
  all_runs env s values; intros H; tidy;
    match goal with
    | H : EUpload _ _ _ _ = EUpload _ _ _ _ |- _ => injection H as <- <- <- <-
    end;
    repeat split; try congruence; try (symmetry; eassumption);
    eexists; split; reflexivity.
Qed.

Lemma onSubmit_uploads (env : Env) (values : Values.t) (s : State) (f : File.t) :
  mounted s = true -> auth_getUser env <> None -> file s = JFile f ->
  exists key answer,
    In (EUpload "card_photos" key (JFile f) answer) (emitted (onSubmit env values s)).
Proof.
  all_runs env s values; intros Hm Hu Hf; tidy;
    injection Hf as <-; eexists; eexists; cbn; auto 6.
Qed.

(** X8. The photo is uploaded to the bucket [card_photos] under the key
    made of the random number, a dot, and the part of the file's name after
    its last dot, so the extension is kept; a name without any dot is used
    whole as the extension. With a [File] attached, a mounted view and a
    signed-in user, that upload does take place. *)
Theorem upload_key_keeps_extension (env : Env) (values : Values.t) (s : State) (f : File.t) :
  file s = JFile f ->
  (forall bucket key body answer,
     In (EUpload bucket key body answer) (emitted (onSubmit env values s)) ->
     bucket = "card_photos" /\ body = JFile f
     /\ (forall base ext,
           File.name f = base ++ "." ++ ext ->
           ~ In "."%char (list_ascii_of_string ext) ->
           key = math_random env ++ "." ++ ext)
     /\ (~ In "."%char (list_ascii_of_string (File.name f)) ->
         key = math_random env ++ "." ++ File.name f))
  /\ (mounted s = true -> auth_getUser env <> None ->
      exists key answer,
        In (EUpload "card_photos" key (JFile f) answer) (emitted (onSubmit env values s))).
Proof.
  intros Hf. split.
  - intros bucket key body answer H.
    apply onSubmit_upload_shape in H. destruct H as (Hb & Hbody & _ & g & Hg & Hk).
    assert (g = f) by congruence. subst g.
    split; [exact Hb |]. split; [congruence |]. split.
    + intros base ext Hn Hext. rewrite Hk, Hn, extension_after_last_dot by exact Hext.
      reflexivity.
    + intros Hnd. rewrite Hk, extension_without_dot by exact Hnd. reflexivity.
  - intros Hm Hu. now apply onSubmit_uploads.
Qed.

Lemma upload_key_keeps_extension_witness :
  exists key answer,
    In (EUpload "card_photos" key (JFile smallJpeg) answer)
      (emitted (onSubmit (world (Some alice) None None None) validValues
                  (with_file (JFile smallJpeg) freshView))).
Proof.
  apply (proj2 (upload_key_keeps_extension (world (Some alice) None None None)
                  validValues (with_file (JFile smallJpeg) freshView) smallJpeg
                  eq_refl)).
  - reflexivity.
  - discriminate.
Defined.

(** X9. Every insert goes to the table [reported_cards] and carries one row:
    the id of the user the identity lookup of the same run resolved, the card
    number, location, found date and document type of the submitted values
    unchanged, and as photo URL either nothing, when nothing is attached,
    or the public URL that storage resolves for the key under which the
    attached value was uploaded successfully in the same run. *)
Theorem inserted_row_contents (env : Env) (values : Values.t) (s : State)
    (table : string) (rows : list Card.t) (answer : option Error) :
  In (EInsert table rows answer) (emitted (onSubmit env values s)) ->
  table = "reported_cards"
  /\ exists u photo,
       In (EGetUser (Some u)) (emitted (onSubmit env values s))
       /\ rows = [Card.mk (id u) (Values.cardNumber values) (Values.location values)
                    (Values.foundDate values) (or_null (Values.description values))
                    photo (Values.documentType values)]
       /\ ((file s = JNull /\ photo = None)
           \/ (exists key,
                 In (EUpload "card_photos" key (file s) None)
                   (emitted (onSubmit env values s))
                 /\ In (EGetPublicUrl "card_photos" key
                          (storage_getPublicUrl env "card_photos" key))
                      (emitted (onSubmit env values s))
                 /\ photo = Some (storage_getPublicUrl env "card_photos" key))).
Proof.
  all_runs env s values; intros H; tidy;
    match goal with
    | H : EInsert _ _ _ = EInsert _ _ _ |- _ => injection H as <- <- <-
    end;
    (split; [reflexivity |]); eexists; eexists;
    (split; [cbn; auto 8 |]); (split; [reflexivity |]);
    first [ left; split; reflexivity
          | right; eexists; split; [cbn; auto 8 | split; [cbn; auto 8 | reflexivity]] ].
Qed.

Lemma inserted_row_contents_witness :
  "reported_cards" = "reported_cards"
  /\ exists u photo,
       In (EGetUser (Some u))
         (emitted (onSubmit (world (Some alice) None None None) validValues
                     (with_file (JFile smallJpeg) freshView)))
       /\ [Card.mk "user-1" "123456" "Dakar" "2024-05-01" None
             (Some "https://cdn.example/card_photos/0.42.jpg") "id"]
          = [Card.mk (id u) (Values.cardNumber validValues) (Values.location validValues)
               (Values.foundDate validValues) (or_null (Values.description validValues))
               photo (Values.documentType validValues)]
       /\ ((file (with_file (JFile smallJpeg) freshView) = JNull /\ photo = None)
           \/ (exists key,
                 In (EUpload "card_photos" key (file (with_file (JFile smallJpeg) freshView))
                       None)
                   (emitted (onSubmit (world (Some alice) None None None) validValues
                               (with_file (JFile smallJpeg) freshView)))
                 /\ In (EGetPublicUrl "card_photos" key
                          (storage_getPublicUrl (world (Some alice) None None None)
                             "card_photos" key))
                      (emitted (onSubmit (world (Some alice) None None None) validValues
                                  (with_file (JFile smallJpeg) freshView)))
                 /\ photo = Some (storage_getPublicUrl (world (Some alice) None None None)
                                    "card_photos" key))).
Proof.
  apply (inserted_row_contents (world (Some alice) None None None) validValues
           (with_file (JFile smallJpeg) freshView) "reported_cards"
           [Card.mk "user-1" "123456" "Dakar" "2024-05-01" None
              (Some "https://cdn.example/card_photos/0.42.jpg") "id"] None).
  simpl. auto 8.
Defined.


(** X11. A run that starts on a mounted view raises exactly one
    notification, which is the success one, the sign-in one or the generic
    error one; a run that starts on a torn-down view raises none. The
    success notification is raised exactly when an insert succeeded. *)
Theorem one_notification_per_run (env : Env) (values : Values.t) (s : State) :
  (mounted s = true ->
   exists t, toasts (emitted (onSubmit env values s)) = [t]
             /\ (t = successToast \/ t = unauthenticatedToast \/ t = errorToast))
  /\ (mounted s = false -> toasts (emitted (onSubmit env values s)) = [])
  /\ (In (EToast successToast) (emitted (onSubmit env values s))
      <-> exists table rows, In (EInsert table rows None) (emitted (onSubmit env values s))).
Proof.
  split; [| split].
  - all_runs env s values; intros Hm; tidy; eexists; (split; [reflexivity | auto]).
  - all_runs env s values; intros Hm; tidy; reflexivity.
  - all_runs env s values; split; intros H; tidy;
      solve [ eexists; eexists; cbn; auto 8 | cbn; auto 8 ].
Qed.

Lemma one_notification_per_run_witness :
  exists t,
    toasts (emitted (onSubmit (world (Some alice) (Some (StorageError "quota")) None None)
                       validValues (with_file (JFile smallJpeg) freshView)))
    = [t]
    /\ (t = successToast \/ t = unauthenticatedToast \/ t = errorToast).
Proof.
  apply (proj1 (one_notification_per_run
                  (world (Some alice) (Some (StorageError "quota")) None None)
                  validValues (with_file (JFile smallJpeg) freshView))).
  reflexivity.
Defined.

(** X12. Whenever the view is still mounted at the end of a run, whether
    the run succeeded, failed or hit an unexpected exception, its state is
    the state before the run with the in-flight flag off, and the page
    renders the submit button enabled with its idle label. *)
Theorem live_view_is_never_left_submitting (env : Env) (values : Values.t) (s : State) :
  mounted (final (onSubmit env values s)) = true ->
  final (onSubmit env values s) = with_isSubmitting false s
  /\ exists view,
       SignalerCarte_render (final (onSubmit env values s)) = Some view
       /\ submitDisabled view = false
       /\ submitLabel view = "Envoyer le signalement".
Proof.
  all_runs env s values; intros Hm; tidy;
    (split; [reflexivity |]); eexists; repeat split.
Qed.

Lemma live_view_is_never_left_submitting_witness :
  final (onSubmit (world (Some alice) None None None) validValues
           (with_file (JFile smallJpeg) freshView))
  = with_isSubmitting false (with_file (JFile smallJpeg) freshView).
Proof.
  apply (live_view_is_never_left_submitting (world (Some alice) None None None)
           validValues (with_file (JFile smallJpeg) freshView)).
  reflexivity.
Defined.

(** X13. A run that starts on a mounted view sets the in-flight flag before
    anything else, touches it again only to clear it, and when the view is
    still mounted at the end clearing it is the last thing it does; a view
    torn down on the way keeps the flag set and never sees it cleared. *)
Theorem in_flight_flag_brackets_run (env : Env) (values : Values.t) (s : State) :
  mounted s = true ->
  hd_error (emitted (onSubmit env values s)) = Some (ESetIsSubmitting true)
  /\ filter setsIsSubmitting (emitted (onSubmit env values s))
     = ESetIsSubmitting true
       :: (if mounted (final (onSubmit env values s)) then [ESetIsSubmitting false] else [])
  /\ (mounted (final (onSubmit env values s)) = true ->
      last (emitted (onSubmit env values s)) EUnmount = ESetIsSubmitting false).
Proof.
  all_runs env s values; intros Hm; tidy; repeat split; intros Hl; tidy; reflexivity.
Qed.

Lemma in_flight_flag_brackets_run_witness :
  hd_error (emitted (onSubmit (world None None None None) validValues freshView))
  = Some (ESetIsSubmitting true).
Proof.
  apply (in_flight_flag_brackets_run (world None None None None) validValues freshView).
  reflexivity.
Defined.

(** X14. In every run the backend calls come in the order identity lookup,
    upload, public-URL resolution, insert, each at most once: the ranks of
    the calls in the trace are strictly increasing. *)
Theorem backend_calls_in_order (env : Env) (values : Values.t) (s : State) :
  StronglySorted lt
    (map callRank (filter isBackendCall (emitted (onSubmit env values s)))).
Proof.
  all_runs env s values; repeat constructor.
Qed.

(** X15. The handler does not look at the in-flight flag: started while the
    flag is already set it makes the same calls and ends the same way as
    when the flag is clear (a second submission is held back by the
    disabled button only). *)
Theorem handler_ignores_in_flight_flag
    (env : Env) (values : Values.t) (s : State) (b : bool) :
  emitted (onSubmit env values (with_isSubmitting b s)) = emitted (onSubmit env values s)
  /\ completion (onSubmit env values (with_isSubmitting b s))
     = completion (onSubmit env values s)
  /\ final (onSubmit env values (with_isSubmitting b s))
     = (if mounted s
        then final (onSubmit env values s)
        else with_isSubmitting b s).
Proof.
  all_runs env s values; repeat split.
Qed.

(** X18. The handler never changes the attached value or the drag
    highlight. The field values, the form errors and the mounted flag are
    changed by a teardown only: they are as before when none happened during
    the run, and the defaults, no error and unmounted when one did. *)
Theorem handler_frame (env : Env) (values : Values.t) (s : State) :
  file (final (onSubmit env values s)) = file s
  /\ isDragging (final (onSubmit env values s)) = isDragging s
  /\ (~ In EUnmount (emitted (onSubmit env values s)) ->
      formValues (final (onSubmit env values s)) = formValues s
      /\ formErrors (final (onSubmit env values s)) = formErrors s
      /\ mounted (final (onSubmit env values s)) = mounted s)
  /\ (In EUnmount (emitted (onSubmit env values s)) ->
      formValues (final (onSubmit env values s)) = defaultValues
      /\ formErrors (final (onSubmit env values s)) = []
      /\ mounted (final (onSubmit env values s)) = false).
Proof.
  all_runs env s values; (split; [reflexivity |]); (split; [reflexivity |]);
    split; intros H; tidy; try (repeat split; fail);
    exfalso; apply H; cbn; auto 8.
Qed.

(** X19. When the insert fails, all that follows it is the log entry with
    the error, the generic error notification and, on a view still mounted,
    the clearing of the in-flight flag: no navigation and no further call to
    storage, so a photo uploaded earlier in the run stays where it is. *)
Theorem failed_insert_is_only_reported (env : Env) (values : Values.t) (s : State)
    (table : string) (rows : list Card.t) (err : Error) :
  In (EInsert table rows (Some err)) (emitted (onSubmit env values s)) ->
  (mounted (final (onSubmit env values s)) = true
   /\ afterInsert (emitted (onSubmit env values s))
      = Some [EConsoleError "Erreur lors de la soumission:" err; EToast errorToast;
              ESetIsSubmitting false])
  \/ (mounted (final (onSubmit env values s)) = false
      /\ (afterInsert (emitted (onSubmit env values s))
          = Some [EConsoleError "Erreur lors de la soumission:" err; EToast errorToast]
          \/ afterInsert (emitted (onSubmit env values s))
             = Some [EUnmount; EConsoleError "Erreur lors de la soumission:" err;
                     EToast errorToast])).
Proof.
  all_runs env s values; intros H; tidy;
    match goal with
    | H : EInsert _ _ _ = EInsert _ _ _ |- _ => injection H as <- <- <-
    end;
    first [ left; split; reflexivity
          | right; split; [reflexivity | left; reflexivity]
          | right; split; [reflexivity | right; reflexivity] ].
Qed.

Lemma failed_insert_is_only_reported_witness :
  afterInsert
    (emitted (onSubmit (world (Some alice) None (Some (PostgrestError "denied")) None)
                validValues (with_file (JFile smallJpeg) freshView)))
  = Some [EConsoleError "Erreur lors de la soumission:" (PostgrestError "denied");
          EToast errorToast; ESetIsSubmitting false].
Proof.
  destruct (failed_insert_is_only_reported
              (world (Some alice) None (Some (PostgrestError "denied")) None)
              validValues (with_file (JFile smallJpeg) freshView)
              "reported_cards"
              [Card.mk "user-1" "123456" "Dakar" "2024-05-01" None
                 (Some "https://cdn.example/card_photos/0.42.jpg") "id"]
              (PostgrestError "denied"))
    as [[_ H] | [Hm _]].
  - simpl. auto 8.
  - exact H.
  - discriminate Hm.
Defined.

(** ** A view that has been torn down *)

Lemma dispatchAll_unmounted (evs : list WidgetEvent) (s : State) :
  mounted s = false ->
  file (fst (dispatchAll handleFileChange evs s)) = file s
  /\ Forall (fun e => mutatesView e = false) (snd (dispatchAll handleFileChange evs s)).
Proof.
  revert s. induction evs as [| ev evs IH]; intros s Hm; cbn [dispatchAll fst snd].
  - split; [reflexivity | constructor].
  - destruct (dispatch_page_cases ev s)
      as (s1 & l & E & _ & Hm1 & _ & _ & _ & Hl & Hf).
    rewrite E. cbn [final emitted].
    destruct Hf as [(Hsame & Hno & _) | (f & _ & _ & Hmt & _)]; [| congruence].
    destruct (IH s1) as [IHf IHl]; [congruence |]. split; [congruence |].
    apply Forall_app. split; [| exact IHl].
    rewrite Forall_forall in *. intros e He.
    destruct (Hl e He) as [_ Heq]. rewrite Heq. now apply Hno.
Qed.

(** X16. Once the cleanup of the view has run, the page is inert: a submit
    is stopped by the schema (the form was reset to its defaults) and emits
    nothing, and no sequence of widget events changes the attached value,
    sets a file or navigates. *)
Theorem torn_down_page_is_inert (env : Env) (evs : list WidgetEvent) (s : State) :
  emitted (submitForm env (final (unmount s))) = []
  /\ isSubmitting (final (submitForm env (final (unmount s)))) = isSubmitting s
  /\ file (fst (dispatchAll handleFileChange evs (final (unmount s)))) = file s
  /\ Forall (fun e => mutatesView e = false)
       (snd (dispatchAll handleFileChange evs (final (unmount s)))).
Proof.
  assert (Hs : formSchema (formValues (final (unmount s))) <> []) by discriminate.
  unfold submitForm. rewrite handleSubmit_invalid by exact Hs.
  destruct (dispatchAll_unmounted evs (final (unmount s)) eq_refl) as [Hf Hl].
  repeat split; assumption.
Qed.

(** ** Submitting the form *)

Lemma onSubmit_ignores_formErrors (env : Env) (values : Values.t) (s : State)
    (errors : list Issue) :
  emitted (onSubmit env values (with_formErrors errors s))
  = emitted (onSubmit env values s).
Proof.
  all_runs env s values; reflexivity.
Qed.

Lemma parseErrorSchema_nil_iff (issues : list Issue) :
  parseErrorSchema issues = [] <-> issues = [].
Proof.
  split; [| intros ->; reflexivity].
  destruct issues as [| i r]; [reflexivity |]. unfold parseErrorSchema. cbn.
  assert (Hgrow : forall l acc,
            acc <> [] ->
            fold_left
              (fun errors error =>
                 if existsb (fun e => String.eqb (path e) (path error)) errors
                 then errors else (errors ++ [error])%list) l acc <> []).
  { induction l as [| x l IH]; intros acc Hacc; cbn; [exact Hacc |].
    apply IH. destruct (existsb _ acc); [exact Hacc |].
    destruct acc; discriminate. }
  intros H. now apply Hgrow in H.
Qed.

(** The errors the form keeps: at most one per field, the first issue the
    schema raised on it. *)
Lemma field_errors (v : Values.t) :
  parseErrorSchema (formSchema v)
  = (z_min 1 "Le type de document est requis" "documentType" (Values.documentType v)
     ++ (if (1 <=? String.length (Values.cardNumber v))%nat
         then z_regex digits_regex cardNumberDigits "cardNumber" (Values.cardNumber v)
         else [mkIssue "cardNumber" cardNumberRequired])
     ++ z_min 1 "Le lieu de découverte est requis" "location" (Values.location v)
     ++ z_min 1 "La date de découverte est requise" "foundDate" (Values.foundDate v))%list.
Proof.
  unfold formSchema, z_min, z_regex.
  destruct (1 <=? String.length (Values.documentType v))%nat;
    destruct (1 <=? String.length (Values.cardNumber v))%nat;
    destruct (digits_regex (Values.cardNumber v));
    destruct (1 <=? String.length (Values.location v))%nat;
    destruct (1 <=? String.length (Values.foundDate v))%nat; reflexivity.
Qed.

(** X20. Submitting the form goes through the schema first. If any required
    field is empty the handler is not entered: nothing is emitted and the
    only change to the state is the form's errors, which hold one error per
    failing field, the first issue raised on it (an empty card number shows
    "required" only). If the schema raises no issue, the submission makes
    exactly the calls of the handler run on the current field values, and
    the form is left without errors. *)
Theorem submission_goes_through_schema (env : Env) (s : State) :
  (Values.documentType (formValues s) = "" \/ Values.cardNumber (formValues s) = ""
   \/ Values.location (formValues s) = "" \/ Values.foundDate (formValues s) = "" ->
   submitForm env s
   = mkOutcome (Normal tt)
       (with_formErrors (parseErrorSchema (formSchema (formValues s))) s) []
   /\ parseErrorSchema (formSchema (formValues s)) <> []
   /\ NoDup (map path (parseErrorSchema (formSchema (formValues s))))
   /\ (Values.cardNumber (formValues s) = "" ->
       issuesOn "cardNumber" (formValues s)
       = [mkIssue "cardNumber" cardNumberRequired; mkIssue "cardNumber" cardNumberDigits]
       /\ filter (fun i => String.eqb (path i) "cardNumber")
            (parseErrorSchema (formSchema (formValues s)))
          = [mkIssue "cardNumber" cardNumberRequired]))
  /\ (formSchema (formValues s) = [] ->
      emitted (submitForm env s) = emitted (onSubmit env (formValues s) s)
      /\ formErrors (final (submitForm env s)) = []).
Proof.
  split.
  - intros H.
    assert (Hne : formSchema (formValues s) <> []).
    { intros E. apply schema_accepts_exactly_complete_forms in E.
      destruct E as (H1 & (H2 & _) & H3 & H4). tauto. }
    split; [unfold submitForm; now apply handleSubmit_invalid |].
    split; [now rewrite parseErrorSchema_nil_iff |].
    split.
    + rewrite field_errors. unfold z_min, z_regex.
      destruct (1 <=? String.length (Values.documentType (formValues s)))%nat;
        destruct (1 <=? String.length (Values.cardNumber (formValues s)))%nat;
        destruct (digits_regex (Values.cardNumber (formValues s)));
        destruct (1 <=? String.length (Values.location (formValues s)))%nat;
        destruct (1 <=? String.length (Values.foundDate (formValues s)))%nat;
        cbn; repeat constructor; cbn; intuition discriminate.
    + intros E. split.
      * unfold issuesOn, formSchema, z_min, z_regex. rewrite E.
        destruct (Values.documentType (formValues s));
          destruct (Values.location (formValues s));
          destruct (Values.foundDate (formValues s)); reflexivity.
      * rewrite field_errors, E. unfold z_min.
        destruct (Values.documentType (formValues s));
          destruct (Values.location (formValues s));
          destruct (Values.foundDate (formValues s)); reflexivity.
  - intros Hv. unfold submitForm. rewrite handleSubmit_valid by exact Hv.
    split; [apply onSubmit_ignores_formErrors |].
    generalize (formValues s) as values. intros values. clear Hv.
    all_runs env s values; reflexivity.
Qed.

Lemma submission_goes_through_schema_witness :
  submitForm (world (Some alice) None None None)
    (with_form defaultValues [] freshView)
  = mkOutcome (Normal tt)
      (with_formErrors
         [mkIssue "cardNumber" cardNumberRequired;
          mkIssue "location" "Le lieu de découverte est requis";
          mkIssue "foundDate" "La date de découverte est requise"]
         (with_form defaultValues [] freshView))
      [].
Proof.
  apply (proj1 (submission_goes_through_schema (world (Some alice) None None None)
                  (with_form defaultValues [] freshView))).
  right. left. reflexivity.
Defined.
